(** * Curriculum table parser ([parse_curriculum_csv.py]): model and properties

    The file embeds the row classifier and tree builder
    ([parse_curriculum_csv]) and the aggregation pass
    ([extract_summary_info]) of the repository, and states the properties of
    the specification about them. It also embeds [clean_module_names], which
    follows them in [main], and, of [parse_curriculum.py], which writes the
    table they read, [parse_page_spec] and the loop of [extract_tables].

    - The input is the data frame after [fillna('')]: a list of rows of four
      text cells ([Row]).
    - Python [str] values are sequences of Unicode code points ([str]);
      [strip], [int], [float] and the three regular expressions of the
      classifier are modelled on them, with the character tables of
      Unicode 14.
    - Python numbers are unbounded integers or binary64 floats ([num]); the
      floats are the primitive floats, and [float] rounds a decimal literal
      correctly.
    - The block and module dictionaries are mutated through the aliases
      [current_block] and [current_module] after they have been stored in
      their parents, so they live in a store and are referred to by address
      ([State]); the tree of the result is read off the store at the end.
*)

From Stdlib Require Import ZArith NArith Ascii String Lia.
From Stdlib Require Import PrimFloat SpecFloat FloatOps.
From stdpp Require Import base option list strings gmap pretty.

Local Open Scope Z_scope.

(** ** Python strings *)

Module PyStr.

Abbreviation codepoint := N.
Abbreviation str := (list N).

(** Source literals are written in UTF-8; [utf8] decodes one into its code
    points. *)
Fixpoint utf8_decode (bs : list N) : str :=
  match bs with
  | [] => []
  | b :: r =>
    if (b <? 0x80)%N then b :: utf8_decode r
    else if (b <? 0xE0)%N then
      match r with
      | b1 :: r1 => ((b - 0xC0) * 64 + (b1 - 0x80))%N :: utf8_decode r1
      | _ => []
      end
    else if (b <? 0xF0)%N then
      match r with
      | b1 :: b2 :: r2 =>
        ((b - 0xE0) * 4096 + (b1 - 0x80) * 64 + (b2 - 0x80))%N :: utf8_decode r2
      | _ => []
      end
    else
      match r with
      | b1 :: b2 :: b3 :: r3 =>
        ((b - 0xF0) * 262144 + (b1 - 0x80) * 4096 + (b2 - 0x80) * 64
         + (b3 - 0x80))%N :: utf8_decode r3
      | _ => []
      end
  end.

Definition utf8 (s : string) : str :=
  utf8_decode (map N_of_ascii (list_ascii_of_string s)).

(** [str.isspace] for one character (Unicode 14, the table of CPython 3.11). *)
Definition whitespace : list codepoint :=
  [9; 10; 11; 12; 13; 28; 29; 30; 31; 32; 133; 160; 5760; 8192; 8193; 8194;
   8195; 8196; 8197; 8198; 8199; 8200; 8201; 8202; 8232; 8233; 8239; 8287;
   12288]%N.

Definition isspace (c : codepoint) : bool := bool_decide (c ∈ whitespace).

Fixpoint lstrip (s : str) : str :=
  match s with
  | c :: r => if isspace c then lstrip r else s
  | [] => []
  end.

(** [s.strip()] *)
Definition strip (s : str) : str := reverse (lstrip (reverse (lstrip s))).

(** The code points of the digit zero of every decimal script (general
    category Nd): each is followed by its digits one to nine. [\d] of [re],
    [int] and [float] all accept exactly these. *)
Definition decimal_zeros : list codepoint :=
  [0x30; 0x660; 0x6f0; 0x7c0; 0x966; 0x9e6; 0xa66; 0xae6; 0xb66; 0xbe6;
   0xc66; 0xce6; 0xd66; 0xde6; 0xe50; 0xed0; 0xf20; 0x1040; 0x1090; 0x17e0;
   0x1810; 0x1946; 0x19d0; 0x1a80; 0x1a90; 0x1b50; 0x1bb0; 0x1c40; 0x1c50;
   0xa620; 0xa8d0; 0xa900; 0xa9d0; 0xa9f0; 0xaa50; 0xabf0; 0xff10; 0x104a0;
   0x10d30; 0x11066; 0x110f0; 0x11136; 0x111d0; 0x112f0; 0x11450; 0x114d0;
   0x11650; 0x116c0; 0x11730; 0x118e0; 0x11950; 0x11c50; 0x11d50; 0x11da0;
   0x16a60; 0x16ac0; 0x16b50; 0x1d7ce; 0x1d7d8; 0x1d7e2; 0x1d7ec; 0x1d7f6;
   0x1e140; 0x1e2f0; 0x1e950; 0x1fbf0]%N.

(** The value of a decimal digit character, [None] for any other one. *)
Definition to_decimal (c : codepoint) : option Z :=
  (λ z, Z.of_N (c - z)) <$>
    find (λ z, (z <=? c)%N && (c <? z + 10)%N) decimal_zeros.

Definition isdecimal (c : codepoint) : bool :=
  match to_decimal c with Some _ => true | None => false end.

(** [s.startswith(p)] *)
Fixpoint startswith (p s : str) : bool :=
  match p, s with
  | [], _ => true
  | a :: p', b :: s' => (a =? b)%N && startswith p' s'
  | _ :: _, [] => false
  end.

(** [p in s] *)
Fixpoint contains (p s : str) : bool :=
  startswith p s ||
  match s with
  | [] => false
  | _ :: s' => contains p s'
  end.

(** [int(s)] for a run of decimal digits. *)
Definition int_of_digits (ds : list Z) : Z :=
  fold_left (λ acc d, acc * 10 + d) ds 0.

(** The longest prefix of decimal digits, as digit values, and what follows. *)
Fixpoint span_digits (s : str) : list Z * str :=
  match s with
  | c :: r =>
    match to_decimal c with
    | Some d => let '(ds, rest) := span_digits r in (d :: ds, rest)
    | None => ([], s)
    end
  | [] => ([], [])
  end.

(** [digit (["_"] digit)*] of the numeric literal grammar that [int] and
    [float] share: what may follow a first digit. *)
Fixpoint digitpart_tail (s : str) : list Z * str :=
  match s with
  | c :: r =>
    match to_decimal c with
    | Some d => let '(ds, rest) := digitpart_tail r in (d :: ds, rest)
    | None =>
      if (c =? 0x5F)%N then
        match r with
        | c' :: r' =>
          match to_decimal c' with
          | Some d => let '(ds, rest) := digitpart_tail r' in (d :: ds, rest)
          | None => ([], s)
          end
        | [] => ([], s)
        end
      else ([], s)
    end
  | [] => ([], [])
  end.

Definition digitpart (s : str) : option (list Z * str) :=
  match s with
  | c :: r =>
    match to_decimal c with
    | Some d => let '(ds, rest) := digitpart_tail r in Some (d :: ds, rest)
    | None => None
    end
  | [] => None
  end.

(** An optional sign: [true] for a minus. *)
Definition sign (s : str) : bool * str :=
  match s with
  | c :: r =>
    if (c =? 0x2D)%N then (true, r)
    else if (c =? 0x2B)%N then (false, r)
    else (false, s)
  | [] => (false, [])
  end.

(** [int(s)] in base ten; [None] stands for [ValueError]. The interpreter's
    configurable limit on the number of digits is not modelled. *)
Definition int_of_str (s : str) : option Z :=
  let '(neg, body) := sign (strip s) in
  match digitpart body with
  | Some (ds, []) =>
    Some (if neg then - int_of_digits ds else int_of_digits ds)
  | _ => None
  end.

End PyStr.
Export PyStr.

(** ** Python numbers *)

Module PyNum.

(** The correctly rounded binary64 value of [(-1)^neg * m * 10^e], for
    [0 <= m]: what [float] computes from a decimal literal. *)
Definition dec2float (neg : bool) (m e : Z) : float :=
  match m with
  | Z0 => if neg then (-0)%float else 0%float
  | Zpos p =>
    if 0 <=? e then
      SF2Prim (binary_normalize prec emax
                 (if neg then - (m * 10 ^ e) else m * 10 ^ e) 0 false)
    else
      SF2Prim (SFdiv prec emax (S754_finite neg p 0)
                 (S754_finite false (Z.to_pos (10 ^ (- e))) 0))
  | Zneg _ => nan
  end.

Definition lower_ascii (c : codepoint) : codepoint :=
  if ((0x41 <=? c) && (c <=? 0x5A))%N then (c + 32)%N else c.

Definition eq_nocase (lit : string) (s : str) : bool :=
  bool_decide (map lower_ascii s = utf8 lit).

(** [number] of the grammar of [float]: the digits before and after the
    point, and what follows. *)
Definition mantissa (s : str) : option (list Z * list Z * str) :=
  match digitpart s with
  | Some (ip, r) =>
    match r with
    | c :: r' =>
      if (c =? 0x2E)%N then
        match digitpart r' with
        | Some (fp, r'') => Some (ip, fp, r'')
        | None => Some (ip, [], r')
        end
      else Some (ip, [], r)
    | [] => Some (ip, [], [])
    end
  | None =>
    match s with
    | c :: r' =>
      if (c =? 0x2E)%N then
        match digitpart r' with
        | Some (fp, r'') => Some ([], fp, r'')
        | None => None
        end
      else None
    | [] => None
    end
  end.

(** An optional [exponent] that ends the literal. *)
Definition exponent (s : str) : option Z :=
  match s with
  | [] => Some 0
  | c :: r =>
    if ((c =? 0x65) || (c =? 0x45))%N then
      let '(neg, r1) := sign r in
      match digitpart r1 with
      | Some (ds, []) =>
        Some (if neg then - int_of_digits ds else int_of_digits ds)
      | _ => None
      end
    else None
  end.

(** [float(s)]; [None] stands for [ValueError]. *)
Definition float_of_str (s : str) : option float :=
  let '(neg, body) := sign (strip s) in
  if eq_nocase "inf" body || eq_nocase "infinity" body then
    Some (if neg then neg_infinity else infinity)
  else if eq_nocase "nan" body then Some nan
  else
    match mantissa body with
    | Some (ip, fp, rest) =>
      match exponent rest with
      | Some e =>
        Some (dec2float neg (int_of_digits (ip ++ fp))
                (e - Z.of_nat (length fp)))
      | None => None
      end
    | None => None
    end.

(** A number is an [int] or a [float]: the literal [0] is an [int], what
    [float] returns is a [float]. *)
Inductive num :=
  | PyInt (z : Z)
  | PyFloat (f : float).

(** The conversion of the [int] operand of a mixed operation. *)
Definition float_of_Z (z : Z) : float :=
  SF2Prim (binary_normalize prec emax z 0 false).

(** [a + b] *)
Definition num_add (a b : num) : num :=
  match a, b with
  | PyInt x, PyInt y => PyInt (x + y)
  | PyInt x, PyFloat y => PyFloat (float_of_Z x + y)
  | PyFloat x, PyInt y => PyFloat (x + float_of_Z y)
  | PyFloat x, PyFloat y => PyFloat (x + y)
  end.

(** [a > 0] *)
Definition num_pos (a : num) : bool :=
  match a with
  | PyInt x => 0 <? x
  | PyFloat x => PrimFloat.ltb 0 x
  end.

(** [a >= 0] *)
Definition num_nonneg (a : num) : bool :=
  match a with
  | PyInt x => 0 <=? x
  | PyFloat x => PrimFloat.leb 0 x
  end.

End PyNum.
Export PyNum.

(** ** The patterns of the row classifier *)

Module Patterns.

Definition dot : codepoint := 0x2E%N.
Definition space : codepoint := 0x20%N.
Definition newline : codepoint := 0x0A%N.

(** The label token of a Block header. *)
Definition block_token : str := Eval vm_compute in utf8 "Блок".

(** [s] without its prefix [p], when it starts with it. *)
Fixpoint strip_prefix (p s : str) : option str :=
  match p, s with
  | [], _ => Some s
  | a :: p', b :: s' => if (a =? b)%N then strip_prefix p' s' else None
  | _ :: _, [] => None
  end.

(** [re.match(r"Блок \d+\.", s)] as a truth value. *)
Definition match_block_prefix (s : str) : bool :=
  match strip_prefix (block_token ++ [space]) s with
  | Some r =>
    match span_digits r with
    | (_ :: _, c :: _) => (c =? dot)%N
    | _ => false
    end
  | None => false
  end.

(** The longest run of characters that [.] matches: all but the newline. *)
Fixpoint dot_plus (s : str) : str :=
  match s with
  | c :: r => if (c =? newline)%N then [] else c :: dot_plus r
  | [] => []
  end.

(** [re.match(r"Блок (\d+)\. (.+)", s)]: the digits of group 1 and group 2. *)
Definition match_block (s : str) : option (list Z * str) :=
  match strip_prefix (block_token ++ [space]) s with
  | Some r =>
    match span_digits r with
    | (d :: ds, c :: c' :: rest) =>
      if ((c =? dot) && (c' =? space))%N then
        match dot_plus rest with
        | [] => None
        | g2 => Some (d :: ds, g2)
        end
      else None
    | _ => None
    end
  | None => None
  end.

(** [re.match(r"^\d+$", s)] as a truth value; [$] also matches before a
    newline that ends the string. *)
Definition match_digits (s : str) : bool :=
  match span_digits s with
  | (_ :: _, rest) => bool_decide (rest = [] ∨ rest = [newline])
  | _ => false
  end.

(** The truth value of a string: it is not empty. *)
Definition nonempty (s : str) : bool :=
  match s with [] => false | _ :: _ => true end.

End Patterns.
Export Patterns.

(** ** The data model *)

(** A row of the table: four text cells. *)
Record Row := mkRow { c1 : str; c2 : str; c3 : str; c4 : str }.

Definition blank_row : Row := mkRow [] [] [] [].

(** [(row == '').all()] *)
Definition is_blank (r : Row) : bool :=
  negb (nonempty (c1 r)) && negb (nonempty (c2 r)) &&
  negb (nonempty (c3 r)) && negb (nonempty (c4 r)).

Record Discipline := mkDiscipline {
  d_semester : option Z;   (* the key "semester" may be absent *)
  d_name : str;
  d_credits : num;
  d_hours : Z }.

Record Module := mkModule {
  module_name : str;
  m_credits : num;
  m_hours : Z;
  m_disciplines : list Discipline }.

(** A block dictionary whose modules are of type [M]: addresses while the
    table is read, the modules themselves in the result. *)
Record BlockOf (M : Type) := mkBlock {
  block_number : Z;
  block_name : str;
  b_total_credits : num;
  b_total_hours : Z;
  b_modules : list M }.
Arguments mkBlock {M}.
Arguments block_number {M}.
Arguments block_name {M}.
Arguments b_total_credits {M}.
Arguments b_total_hours {M}.
Arguments b_modules {M}.

Abbreviation addr := nat.
Abbreviation Block := (BlockOf Module).

(** The state of the loop over the rows. [blocks] is
    [curriculum_data["blocks"]]: it holds references, and so do
    [current_block], [current_module] and the module list of a block. *)
Record State := mkState {
  blocks : list addr;
  total_credits : num;
  total_hours : Z;
  current_block : option addr;
  current_module : option addr;
  block_store : list (BlockOf addr);
  module_store : list Module }.

Definition init_state : State :=
  mkState [] (PyInt 0) 0 None None [] [].

(** ** The row classifier and tree builder *)

(** [credits = float(col3) if col3 else 0]; [None] stands for [ValueError]. *)
Definition credits_of (col3 : str) : option num :=
  if nonempty col3 then PyFloat <$> float_of_str col3 else Some (PyInt 0).

(** [hours = int(col4) if col4 else 0] *)
Definition hours_of (col4 : str) : option Z :=
  if nonempty col4 then int_of_str col4 else Some 0.

(** The two assignments in the body of one [try]. *)
Definition credits_hours (col3 col4 : str) : option (num * Z) :=
  match credits_of col3, hours_of col4 with
  | Some credits, Some hours => Some (credits, hours)
  | _, _ => None
  end.

(** [try: ... except ValueError: credits = 0; hours = 0] *)
Definition credits_hours_or_zero (col3 col4 : str) : num * Z :=
  default (PyInt 0, 0) (credits_hours col3 col4).

(** The conditions of the four branches, in the order of the source. *)
Definition block_guard (col1 col2 : str) : bool :=
  negb (nonempty col1) && contains block_token col2 && match_block_prefix col2.

Definition module_guard (col1 col2 col3 col4 : str) : bool :=
  negb (nonempty col1) && nonempty col2 && negb (startswith block_token col2)
  && negb (match_digits col2) && nonempty col3 && nonempty col4.

Definition discipline_guard (col1 col2 col3 col4 : str) : bool :=
  nonempty col1 && match_digits col1 && nonempty col2 && nonempty col3
  && nonempty col4.

Definition plain_discipline_guard (col1 col2 col3 col4 : str) : bool :=
  negb (nonempty col1) && nonempty col2 && negb (startswith block_token col2)
  && negb (match_digits col2) && nonempty col3 && nonempty col4.

(** [curriculum_data["blocks"].append(current_block)], when there is one. *)
Definition append_current_block (st : State) : State :=
  match current_block st with
  | Some b =>
    mkState (blocks st ++ [b]) (total_credits st) (total_hours st)
      (current_block st) (current_module st) (block_store st) (module_store st)
  | None => st
  end.

(** A new block becomes the current one and the totals are updated. *)
Definition open_block (st : State) (blk : BlockOf addr) : State :=
  mkState (blocks st)
    (num_add (total_credits st) (b_total_credits blk))
    (total_hours st + b_total_hours blk)
    (Some (length (block_store st))) None
    (block_store st ++ [blk]) (module_store st).

Definition add_module_ref (m : addr) (blk : BlockOf addr) : BlockOf addr :=
  mkBlock (block_number blk) (block_name blk) (b_total_credits blk)
    (b_total_hours blk) (b_modules blk ++ [m]).

(** A new module becomes the current one and is appended to block [b]. *)
Definition open_module (st : State) (b : addr) (m : Module) : State :=
  mkState (blocks st) (total_credits st) (total_hours st)
    (current_block st) (Some (length (module_store st)))
    (alter (add_module_ref (length (module_store st))) b (block_store st))
    (module_store st ++ [m]).

Definition add_discipline (d : Discipline) (m : Module) : Module :=
  mkModule (module_name m) (m_credits m) (m_hours m) (m_disciplines m ++ [d]).

(** [current_module["disciplines"].append(discipline)], when there is one. *)
Definition append_discipline (st : State) (d : Discipline) : State :=
  match current_module st with
  | Some m =>
    mkState (blocks st) (total_credits st) (total_hours st)
      (current_block st) (current_module st) (block_store st)
      (alter (add_discipline d) m (module_store st))
  | None => st
  end.

(** The body of the loop for one row. *)
Definition process_row (st : State) (row : Row) : State :=
  if is_blank row then st else
  let col1 := strip (c1 row) in
  let col2 := strip (c2 row) in
  let col3 := strip (c3 row) in
  let col4 := strip (c4 row) in
  if block_guard col1 col2 then
    let st := append_current_block st in
    match match_block col2 with
    | Some (g1, g2) =>
      let '(credits, hours) := credits_hours_or_zero col3 col4 in
      open_block st (mkBlock (int_of_digits g1) g2 credits hours [])
    | None => st
    end
  else if module_guard col1 col2 col3 col4 then
    match current_block st with
    | Some b =>
      let '(credits, hours) := credits_hours_or_zero col3 col4 in
      if num_pos credits || (0 <? hours) then
        open_module st b (mkModule col2 credits hours [])
      else st
    | None => st
    end
  else if discipline_guard col1 col2 col3 col4 then
    match int_of_str col1, credits_of col3, hours_of col4 with
    | Some semester_num, Some credits, Some hours =>
      append_discipline st (mkDiscipline (Some semester_num) col2 credits hours)
    | _, _, _ => st
    end
  else if plain_discipline_guard col1 col2 col3 col4 then
    match credits_of col3, hours_of col4 with
    | Some credits, Some hours =>
      if num_pos credits || (0 <? hours) then
        append_discipline st (mkDiscipline None col2 credits hours)
      else st
    | _, _ => st
    end
  else st.

(** The loop over all rows, then the last block is appended. *)
Definition classify (rows : list Row) : State :=
  append_current_block (fold_left process_row rows init_state).

(** The value of the block at an address: its modules are looked up. *)
Definition resolve_block (st : State) (b : addr) : option Block :=
  blk ← block_store st !! b;
  Some (mkBlock (block_number blk) (block_name blk) (b_total_credits blk)
          (b_total_hours blk)
          (omap (λ m, module_store st !! m) (b_modules blk))).

(** The value of [curriculum_data["blocks"]]. *)
Definition tree_blocks (st : State) : list Block :=
  omap (resolve_block st) (blocks st).

(** ** The aggregator *)

Record Bucket := mkBucket {
  bk_credits : num;
  bk_hours : Z;
  bk_disciplines : Z }.

Record Work := mkWork {
  w_total_credits : num;
  w_total_hours : Z }.

Record Summary := mkSummary {
  total_disciplines : Z;
  semesters_count : Z;
  blocks_count : Z;
  modules_count : Z;
  practical_work : Work;
  theoretical_work : Work;
  semester_distribution : gmap string Bucket }.

(** [f"semester_{n}"] *)
Definition semester_key (n : Z) : string := "semester_" +:+ pretty n.

Definition init_distribution : gmap string Bucket :=
  <["semester_1" := mkBucket (PyInt 0) 0 0]>
  (<["semester_2" := mkBucket (PyInt 0) 0 0]>
  (<["semester_3" := mkBucket (PyInt 0) 0 0]>
  (<["semester_4" := mkBucket (PyInt 0) 0 0]> ∅))).

Definition init_summary (blocks_len : Z) : Summary :=
  mkSummary 0 4 blocks_len 0 (mkWork (PyInt 0) 0) (mkWork (PyInt 0) 0)
    init_distribution.

Definition add_to_bucket (d : Discipline) (b : Bucket) : Bucket :=
  mkBucket (num_add (bk_credits b) (d_credits d)) (bk_hours b + d_hours d)
    (bk_disciplines b + 1).

(** The body of the loop over the disciplines of a module. *)
Definition distribute (dist : gmap string Bucket) (d : Discipline)
  : gmap string Bucket :=
  match d_semester d with
  | Some n =>
    match dist !! semester_key n with
    | Some b => <[semester_key n := add_to_bucket d b]> dist
    | None => dist
    end
  | None => dist
  end.

Definition add_work (w : Work) (m : Module) : Work :=
  mkWork (num_add (w_total_credits w) (m_credits m))
    (w_total_hours w + m_hours m).

Section Aggregator.

(** [str.lower], the lower-case mapping of the interpreter's Unicode
    database, is left open: no property below depends on which one it is. *)
Variable lower : str -> str.

Definition is_practical (m : Module) : bool :=
  contains (utf8 "практика") (lower (module_name m))
  || contains (utf8 "практик") (lower (module_name m)).

(** The body of the loop over the modules of a block. *)
Definition summary_add_module (s : Summary) (m : Module) : Summary :=
  mkSummary
    (total_disciplines s + Z.of_nat (length (m_disciplines m)))
    (semesters_count s) (blocks_count s) (modules_count s)
    (if is_practical m then add_work (practical_work s) m
     else practical_work s)
    (if is_practical m then theoretical_work s
     else add_work (theoretical_work s) m)
    (fold_left distribute (m_disciplines m) (semester_distribution s)).

(** The body of the loop over the blocks. *)
Definition summary_add_block (s : Summary) (b : Block) : Summary :=
  fold_left summary_add_module (b_modules b)
    (mkSummary (total_disciplines s) (semesters_count s) (blocks_count s)
       (modules_count s + Z.of_nat (length (b_modules b)))
       (practical_work s) (theoretical_work s) (semester_distribution s)).

Definition extract_summary_info (bs : list Block) : Summary :=
  fold_left summary_add_block bs (init_summary (Z.of_nat (length bs))).

(** ** The whole function *)

Record ProgramInfo := mkProgramInfo {
  title : str;
  university : str;
  level : str;
  pi_total_credits : num;
  pi_total_hours : Z }.

Record Curriculum := mkCurriculum {
  program_info : ProgramInfo;
  cur_blocks : list Block;
  summary : Summary }.

(** [df.iloc[0, 0] if len(df) > 0 else "Учебный план"] *)
Definition program_title (rows : list Row) : str :=
  match rows with
  | r :: _ => c1 r
  | [] => utf8 "Учебный план"
  end.

Definition parse_curriculum_csv (rows : list Row) : Curriculum :=
  let st := classify rows in
  mkCurriculum
    (mkProgramInfo (program_title rows) (utf8 "ИТМО") (utf8 "магистратура")
       (total_credits st) (total_hours st))
    (tree_blocks st)
    (extract_summary_info (tree_blocks st)).

End Aggregator.

(** ** Notions used to state the properties *)

(** [sum(block["total_credits"] for block in blocks)] and the same for the
    hours. *)
Definition sum_credits (bs : list Block) : num :=
  fold_left num_add (b_total_credits <$> bs) (PyInt 0).

Definition sum_hours (bs : list Block) : Z :=
  fold_left Z.add (b_total_hours <$> bs) 0.

(** The modules and the disciplines of a tree in the order in which the
    aggregator visits them. *)
Definition all_modules (bs : list Block) : list Module := bs ≫= b_modules.

Definition all_disciplines (bs : list Block) : list Discipline :=
  all_modules bs ≫= m_disciplines.

(** The disciplines that carry semester [k]. *)
Definition of_semester (k : Z) (ds : list Discipline) : list Discipline :=
  filter (λ d, d_semester d = Some k) ds.

Definition zero_bucket : Bucket := mkBucket (PyInt 0) 0 0.
Definition zero_work : Work := mkWork (PyInt 0) 0.

(** The number of disciplines counted in the four buckets together. *)
Definition bucket_count (dist : gmap string Bucket) (k : Z) : Z :=
  default 0 (bk_disciplines <$> dist !! semester_key k).

Definition counted_disciplines (dist : gmap string Bucket) : Z :=
  bucket_count dist 1 + bucket_count dist 2 + bucket_count dist 3
  + bucket_count dist 4.

(** The cells of a row as the classifier reads them. *)
Definition col1 (r : Row) : str := strip (c1 r).
Definition col2 (r : Row) : str := strip (c2 r).
Definition col3 (r : Row) : str := strip (c3 r).
Definition col4 (r : Row) : str := strip (c4 r).

(** A Discipline row: a purely numeric first cell and three other cells
    that are not empty. *)
Definition is_discipline_row (r : Row) : bool :=
  discipline_guard (col1 r) (col2 r) (col3 r) (col4 r).

(** The state in which a row is read: after the rows before it. *)
Definition state_after (rows : list Row) : State :=
  fold_left process_row rows init_state.



(** The header of a Block has a name: a row that enters the Block branch also
    matches the pattern with the name. *)
Definition named_header (r : Row) : Prop :=
  is_blank r = false → block_guard (col1 r) (col2 r) = true →
  is_Some (match_block (col2 r)).

(** The totals are the sums over the blocks opened so far, and these are the
    listed blocks followed by the current one. *)
Definition totals_inv (st : State) : Prop :=
  total_credits st =
    fold_left num_add (b_total_credits <$> block_store st) (PyInt 0)
  ∧ total_hours st = fold_left Z.add (b_total_hours <$> block_store st) 0
  ∧ blocks st ++ option_list (current_block st) =
    seq 0 (length (block_store st)).

(** The lower-case mapping on the Basic Latin and on the Cyrillic capital
    letters U+0400 to U+042F, where [str.lower] agrees with it; it is used to
    run the function on examples written with these letters. *)
Definition lower_char (c : codepoint) : codepoint :=
  if ((0x41 <=? c) && (c <=? 0x5A))%N then (c + 0x20)%N
  else if ((0x410 <=? c) && (c <=? 0x42F))%N then (c + 0x20)%N
  else if ((0x400 <=? c) && (c <=? 0x40F))%N then (c + 0x50)%N
  else c.

Definition basic_lower (s : str) : str := map lower_char s.

(** A row from its four cells written as literals. *)
Definition row_of (a b c d : string) : Row :=
  mkRow (utf8 a) (utf8 b) (utf8 c) (utf8 d).

(** ** Cleaning the names ([clean_module_names]) *)

Definition clean_discipline (d : Discipline) : Discipline :=
  mkDiscipline (d_semester d) (strip (d_name d)) (d_credits d) (d_hours d).

Definition clean_module (m : Module) : Module :=
  mkModule (strip (module_name m)) (m_credits m) (m_hours m)
    (clean_discipline <$> m_disciplines m).

Definition clean_block (b : Block) : Block :=
  mkBlock (block_number b) (block_name b) (b_total_credits b)
    (b_total_hours b) (clean_module <$> b_modules b).

(** The names of the modules and of their disciplines are stripped where
    they are, and the same dictionary is returned. A module that is reached
    through two entries of the list is stripped twice, which gives what
    stripping it once gives (lemma [strip_strip]). *)
Definition clean_module_names (data : Curriculum) : Curriculum :=
  mkCurriculum (program_info data) (clean_block <$> cur_blocks data)
    (summary data).

(** The names of a module and of its disciplines are already stripped. *)
Definition stripped_names (m : Module) : Prop :=
  strip (module_name m) = module_name m
  ∧ Forall (λ d, strip (d_name d) = d_name d) (m_disciplines m).

(** ** Headers *)

(** The number, the name, the credits and the hours of a block. *)
Definition block_header {M : Type} (b : BlockOf M) : Z * str * num * Z :=
  (block_number b, block_name b, b_total_credits b, b_total_hours b).

(** What a row gives to the block it opens, when it opens one. *)
Definition row_header (r : Row) : option (Z * str * num * Z) :=
  if block_guard (col1 r) (col2 r) then
    match match_block (col2 r) with
    | Some (g1, g2) =>
      let '(credits, hours) := credits_hours_or_zero (col3 r) (col4 r) in
      Some (int_of_digits g1, g2, credits, hours)
    | None => None
    end
  else None.

(** The row does not enter the Block branch. *)
Definition not_header (r : Row) : Prop :=
  block_guard (col1 r) (col2 r) = false.

(** The result for a table in which nothing is recognised. *)
Definition empty_curriculum (rows : list Row) : Curriculum :=
  mkCurriculum
    (mkProgramInfo (program_title rows) (utf8 "ИТМО") (utf8 "магистратура")
       (PyInt 0) 0)
    [] (init_summary 0).

(** ** Sums over the tree *)

(** The hours of a list of modules or of disciplines, added up. *)
Definition module_hours (ms : list Module) : Z :=
  foldr (λ m acc, m_hours m + acc) 0 ms.

Definition discipline_hours (ds : list Discipline) : Z :=
  foldr (λ d acc, d_hours d + acc) 0 ds.

(** The discipline carries one of the semesters 1 to 4. *)
Definition in_buckets (d : Discipline) : bool :=
  match d_semester d with
  | Some n => (1 <=? n) && (n <=? 4)
  | None => false
  end.

Definition bucket_hours (dist : gmap string Bucket) (k : Z) : Z :=
  default 0 (bk_hours <$> dist !! semester_key k).

(** The hours of the four buckets together. *)
Definition distributed_hours (dist : gmap string Bucket) : Z :=
  bucket_hours dist 1 + bucket_hours dist 2 + bucket_hours dist 3
  + bucket_hours dist 4.

(** ** How the state and the tree grow *)

(** The addresses held by the state are addresses of stored dictionaries. *)
Definition addresses_valid (st : State) : Prop :=
  (∀ b, b ∈ blocks st → (b < length (block_store st))%nat)
  ∧ (∀ b, current_block st = Some b → (b < length (block_store st))%nat)
  ∧ (∀ a blk m, block_store st !! a = Some blk → m ∈ b_modules blk →
       (m < length (module_store st))%nat)
  ∧ (∀ m, current_module st = Some m → (m < length (module_store st))%nat).

(** The open module is the module appended last to the current block, and no
    module is open exactly when the current block has none. *)
Definition module_open_last (st : State) : Prop :=
  match current_module st with
  | Some m =>
    ∃ b blk, current_block st = Some b ∧ block_store st !! b = Some blk
             ∧ last (b_modules blk) = Some m
  | None =>
    ∀ b blk, current_block st = Some b → block_store st !! b = Some blk →
             b_modules blk = []
  end.

Definition well_formed (st : State) : Prop :=
  addresses_valid st ∧ module_open_last st.

(** A module with the same name, credits and hours and with more
    disciplines after those it has. *)
Definition module_grows (m m' : Module) : Prop :=
  module_name m = module_name m' ∧ m_credits m = m_credits m'
  ∧ m_hours m = m_hours m'
  ∧ m_disciplines m `prefix_of` m_disciplines m'.

Definition stored_block_grows (b b' : BlockOf addr) : Prop :=
  block_header b = block_header b' ∧ b_modules b `prefix_of` b_modules b'.

Definition store_grows (st st' : State) : Prop :=
  (∀ a b, block_store st !! a = Some b →
     ∃ b', block_store st' !! a = Some b' ∧ stored_block_grows b b')
  ∧ (∀ a m, module_store st !! a = Some m →
       ∃ m', module_store st' !! a = Some m' ∧ module_grows m m').

(** A block with the same header whose modules have grown and are followed
    by more modules; a tree whose blocks have grown and are followed by more
    blocks. *)
Definition block_grows (b b' : Block) : Prop :=
  block_header b = block_header b'
  ∧ ∃ ms, Forall2 module_grows (b_modules b) ms
          ∧ ms `prefix_of` b_modules b'.

Definition tree_grows (bs bs' : list Block) : Prop :=
  ∃ bs1, Forall2 block_grows bs bs1 ∧ bs1 `prefix_of` bs'.

(** ** Page specifications ([parse_page_spec] of [parse_curriculum.py]) *)

Module PageSpec.

Definition comma : codepoint := 0x2C%N.
Definition dash : codepoint := 0x2D%N.

(** [s.split(",")] *)
Fixpoint split_comma (s : str) : list str :=
  match s with
  | [] => [[]]
  | c :: r =>
    if (c =? comma)%N then [] :: split_comma r
    else
      match split_comma r with
      | p :: ps => (c :: p) :: ps
      | [] => [[c]]
      end
  end.

(** [s.lower() == "all"]. The characters that [str.lower] maps to [a] or to
    [l] are these letters and their capitals, and it maps no character to
    more than one of them, so the test is on three characters. *)
Definition lower_is_all (s : str) : bool :=
  match s with
  | [a; l; l'] =>
    ((a =? 0x61) || (a =? 0x41))%N && ((l =? 0x6C) || (l =? 0x4C))%N
    && ((l' =? 0x6C) || (l' =? 0x4C))%N
  | _ => false
  end.

(** [re.match(r"(\d+)-(\d+)$", part)] and [map(int, m.groups())] *)
Definition match_page_range (part : str) : option (Z * Z) :=
  match span_digits part with
  | (d :: ds, c :: r) =>
    if (c =? dash)%N then
      match span_digits r with
      | (e :: es, rest) =>
        if bool_decide (rest = [] ∨ rest = [newline])
        then Some (int_of_digits (d :: ds), int_of_digits (e :: es))
        else None
      | _ => None
      end
    else None
  | _ => None
  end.

(** [range(a, b)] *)
Definition py_range (a b : Z) : list Z := seqZ a (b - a).

(** The indices that one part of the specification adds; [None] stands for
    the [ValueError] of [int]. *)
Definition part_indices (part : str) : option (list Z) :=
  let part := strip part in
  match match_page_range part with
  | Some (start, end_) => Some (py_range (start - 1) end_)
  | None => (λ idx, [idx - 1]) <$> int_of_str part
  end.

Definition parse_page_spec (spec : str) (num_pages : Z) : option (list Z) :=
  if lower_is_all (strip spec) then Some (py_range 0 num_pages)
  else
    indices ← mapM part_indices (split_comma spec);
    Some (filter (λ i, 0 ≤ i < num_pages) (concat indices)).

End PageSpec.
Export PageSpec.

(** ** Collecting the tables ([extract_tables] of [parse_curriculum.py]) *)

Module Tables.

(** A cell of an extracted table is a string or [None]. *)
Abbreviation TableRow := (list (option (list N))).
Abbreviation Table := (list (list (option (list N)))).

Inductive error := ValueError | IndexError | RuntimeError.

(** [pages[i]] for a Python index: a negative one counts from the end. *)
Definition py_index {A} (l : list A) (i : Z) : option A :=
  if 0 <=? i then l !! Z.to_nat i
  else if 0 <=? Z.of_nat (length l) + i
       then l !! Z.to_nat (Z.of_nat (length l) + i)
       else None.

(** The body of the loop over the tables of a page: [rows] and [header]. *)
Definition add_table (acc : list TableRow * option TableRow) (table : Table)
  : list TableRow * option TableRow :=
  match table with
  | [] => acc
  | first :: data_rows =>
    match acc.2 with
    | None => (acc.1 ++ data_rows, Some first)
    | Some header =>
      (acc.1 ++ (if decide (first = header) then data_rows else table),
       Some header)
    end
  end.

(** [extract_tables] up to the point where the data frame is built from the
    header and the rows: [pages] holds, for each page of the document, what
    [page.extract_tables()] returns. *)
Definition extract_tables_rows (pages : list (list Table)) (pages_spec : str)
  : error + (TableRow * list TableRow) :=
  match parse_page_spec pages_spec (Z.of_nat (length pages)) with
  | None => inl ValueError
  | Some pages_to_process =>
    match mapM (py_index pages) pages_to_process with
    | None => inl IndexError
    | Some selected =>
      match fold_left add_table (concat selected) ([], None) with
      | (rows, Some header) => inr (header, rows)
      | (_, None) => inl RuntimeError
      end
    end
  end.

(** The rows that a table adds once the header is known. *)
Definition without_header (header : TableRow) (table : Table) : list TableRow :=
  match table with
  | first :: data_rows => if decide (first = header) then data_rows else table
  | [] => []
  end.

End Tables.
Export Tables.

(** The credits and the hours of a header. *)
Definition header_credits (h : Z * str * num * Z) : num := h.1.2.
Definition header_hours (h : Z * str * num * Z) : Z := h.2.

(** The totals are the sums over the blocks opened so far. *)
Definition totals_of_store (st : State) : Prop :=
  total_credits st =
    fold_left num_add (b_total_credits <$> block_store st) (PyInt 0)
  ∧ total_hours st = fold_left Z.add (b_total_hours <$> block_store st) 0.

(** ** Properties of the row classifier *)

Section Classifier.

(** The condition of the fourth branch is the condition of the second. *)
Lemma plain_discipline_guard_is_module_guard a b c d :
  plain_discipline_guard a b c d = module_guard a b c d.
Proof. reflexivity. Qed.

(** The fourth branch of the loop body is never entered. *)
Lemma process_row_three_branches st row :
  process_row st row =
  if is_blank row then st else
  if block_guard (col1 row) (col2 row) then
    match match_block (col2 row) with
    | Some (g1, g2) =>
      let '(credits, hours) := credits_hours_or_zero (col3 row) (col4 row) in
      open_block (append_current_block st)
        (mkBlock (int_of_digits g1) g2 credits hours [])
    | None => append_current_block st
    end
  else if module_guard (col1 row) (col2 row) (col3 row) (col4 row) then
    match current_block st with
    | Some b =>
      let '(credits, hours) := credits_hours_or_zero (col3 row) (col4 row) in
      if num_pos credits || (0 <? hours) then
        open_module st b (mkModule (col2 row) credits hours [])
      else st
    | None => st
    end
  else if is_discipline_row row then
    match int_of_str (col1 row), credits_of (col3 row), hours_of (col4 row) with
    | Some n, Some credits, Some hours =>
      append_discipline st (mkDiscipline (Some n) (col2 row) credits hours)
    | _, _, _ => st
    end
  else st.
Proof.
  unfold process_row, is_discipline_row, col1, col2, col3, col4.
  unfold plain_discipline_guard, module_guard.
  destruct (is_blank row); [reflexivity|].
  destruct (block_guard _ _); [by destruct (match_block _) as [[]|]|].
  by destruct (negb _ && _ && _ && _ && _ && _).
Qed.

Lemma blank_row_skipped st row : is_blank row = true → process_row st row = st.
Proof. intros H. unfold process_row. by rewrite H. Qed.

Lemma nonempty_strip_false s : nonempty s = false → nonempty (strip s) = false.
Proof. destruct s; [reflexivity | discriminate]. Qed.

(** A property of the stored modules that new modules have and that
    appending a discipline with a semester keeps holds after every row. *)
Lemma module_store_step (P : Module → Prop) st row :
  (∀ name cr h, num_pos cr || (0 <? h) = true → P (mkModule name cr h [])) →
  (∀ m n name cr h,
     P m → P (add_discipline (mkDiscipline (Some n) name cr h) m)) →
  Forall P (module_store st) →
  Forall P (module_store (process_row st row)).
Proof.
  intros Hnew Happ HP. rewrite process_row_three_branches.
  destruct (is_blank row); [done|].
  destruct (block_guard _ _).
  { unfold append_current_block.
    destruct (match_block _) as [[g1 g2]|];
      [destruct (credits_hours_or_zero _ _)|];
      by destruct (current_block st). }
  destruct (module_guard _ _ _ _).
  { destruct (current_block st); [|done].
    destruct (credits_hours_or_zero _ _) as [cr h].
    destruct (num_pos cr || (0 <? h)) eqn:Hpos; [|done].
    simpl. apply Forall_app; split; [done|]. by repeat constructor; apply Hnew. }
  destruct (is_discipline_row row); [|done].
  destruct (int_of_str _); [|done].
  destruct (credits_of _); [|done].
  destruct (hours_of _); [|done].
  unfold append_discipline. destruct (current_module st); [|done].
  simpl. apply Forall_alter; [done|]. intros m _. apply Happ.
Qed.

Lemma module_store_invariant (P : Module → Prop) rows st :
  (∀ name cr h, num_pos cr || (0 <? h) = true → P (mkModule name cr h [])) →
  (∀ m n name cr h,
     P m → P (add_discipline (mkDiscipline (Some n) name cr h) m)) →
  Forall P (module_store st) →
  Forall P (module_store (fold_left process_row rows st)).
Proof.
  intros Hnew Happ. revert st.
  induction rows as [|row rows IH]; intros st HP; [done|].
  simpl. apply IH. by apply module_store_step.
Qed.

Lemma module_store_append_current_block st :
  module_store (append_current_block st) = module_store st.
Proof. unfold append_current_block. by destruct (current_block st). Qed.

(** Every module of the tree is a stored module. *)
Lemma tree_modules_stored st m :
  m ∈ all_modules (tree_blocks st) → m ∈ module_store st.
Proof.
  unfold all_modules, tree_blocks. rewrite list_elem_of_bind.
  intros (b & Hm & Hb). apply list_elem_of_omap in Hb as (a & _ & Hb).
  unfold resolve_block in Hb. destruct (block_store st !! a) as [blk|]; [|done].
  simpl in Hb. injection Hb as <-. simpl in Hm.
  apply list_elem_of_omap in Hm as (i & _ & Hi).
  by eapply list_elem_of_lookup_2.
Qed.

Lemma classified_modules (P : Module → Prop) rows :
  (∀ name cr h, num_pos cr || (0 <? h) = true → P (mkModule name cr h [])) →
  (∀ m n name cr h,
     P m → P (add_discipline (mkDiscipline (Some n) name cr h) m)) →
  Forall P (all_modules (tree_blocks (classify rows))).
Proof.
  intros Hnew Happ. apply Forall_forall. intros m Hm.
  apply tree_modules_stored in Hm. unfold classify in Hm.
  rewrite module_store_append_current_block in Hm.
  revert m Hm. apply Forall_forall.
  by apply module_store_invariant; [| |constructor].
Qed.

End Classifier.

(** ** Rows that are not block or module rows *)

Section Rows.

Lemma nonempty_strip s : nonempty (strip s) = true → nonempty s = true.
Proof. by destruct s. Qed.

(** A row whose first cell is not empty after stripping enters neither the
    Block branch nor the Module branch. *)
Lemma numbered_row_step st row :
  nonempty (col1 row) = true →
  process_row st row =
  if is_discipline_row row then
    match int_of_str (col1 row), credits_of (col3 row), hours_of (col4 row) with
    | Some n, Some credits, Some hours =>
      append_discipline st (mkDiscipline (Some n) (col2 row) credits hours)
    | _, _, _ => st
    end
  else st.
Proof.
  intros H. rewrite process_row_three_branches.
  unfold block_guard, module_guard. rewrite H. simpl.
  destruct (is_blank row) eqn:Hb; [|done].
  unfold is_blank in Hb. apply nonempty_strip in H. by rewrite H in Hb.
Qed.

Lemma discipline_row_numbered row :
  is_discipline_row row = true → nonempty (col1 row) = true.
Proof.
  unfold is_discipline_row, discipline_guard.
  by destruct (nonempty (col1 row)).
Qed.

(** Without an open module a numbered row leaves the state as it is. *)
Lemma numbered_row_no_module st row :
  nonempty (col1 row) = true → current_module st = None →
  process_row st row = st.
Proof.
  intros H Hm. rewrite numbered_row_step by done.
  unfold append_discipline. rewrite Hm. by repeat case_match.
Qed.

(** A row that matches the Block pattern is not blank. *)
Lemma block_row_not_blank row :
  block_guard (col1 row) (col2 row) = true → is_blank row = false.
Proof.
  unfold block_guard, is_blank. intros [[_ H]%andb_prop _]%andb_prop.
  destruct (nonempty (c2 row)) eqn:H2; [by rewrite !andb_false_r|].
  unfold col2 in H. by destruct (c2 row).
Qed.

Lemma strip_prefix_startswith p q s r :
  strip_prefix (p ++ q) s = Some r → startswith p s = true.
Proof.
  revert s. induction p as [|a p IH]; intros s; [done|].
  destruct s as [|b s]; [done|]. simpl.
  destruct (a =? b)%N; [apply IH | done].
Qed.

(** A row that meets the condition of the Module branch does not meet that
    of the Block branch. *)
Lemma module_row_not_block row :
  module_guard (col1 row) (col2 row) (col3 row) (col4 row) = true →
  block_guard (col1 row) (col2 row) = false.
Proof.
  unfold module_guard, block_guard, match_block_prefix.
  destruct (strip_prefix _ (col2 row)) as [r|] eqn:Hp;
    [|by rewrite andb_false_r].
  apply strip_prefix_startswith in Hp. rewrite Hp.
  by rewrite andb_false_r.
Qed.

End Rows.

(** ** The first block *)

Section FirstBlock.







End FirstBlock.

(** ** A purely numeric cell parses *)

Section NumericCell.

Lemma space_not_decimal c : isspace c = true → to_decimal c = None.
Proof.
  unfold isspace, whitespace. intros H%bool_decide_eq_true.
  repeat (apply elem_of_cons in H as [->|H]; [reflexivity|]).
  by apply elem_of_nil in H.
Qed.

Lemma decimal_not_space c d : to_decimal c = Some d → isspace c = false.
Proof.
  intros H. destruct (isspace c) eqn:Hs; [|done].
  apply space_not_decimal in Hs. congruence.
Qed.

Lemma lstrip_not_space s c r : lstrip s = c :: r → isspace c = false.
Proof.
  induction s as [|a s IH]; simpl; [done|].
  destruct (isspace a) eqn:Ha; [done|]. by intros [= <- _].
Qed.

(** What [strip] returns does not end with a space. *)
Lemma strip_snoc s l c : strip s = l ++ [c] → isspace c = false.
Proof.
  unfold strip. intros H. apply (f_equal reverse) in H.
  rewrite reverse_involutive, reverse_snoc in H.
  by eapply lstrip_not_space.
Qed.

Lemma lstrip_id s : (∀ c, c ∈ s → isspace c = false) → lstrip s = s.
Proof.
  destruct s as [|a s]; [done|]. intros H. simpl.
  by rewrite H by apply list_elem_of_here.
Qed.

Lemma strip_id s : (∀ c, c ∈ s → isspace c = false) → strip s = s.
Proof.
  intros H. unfold strip. rewrite (lstrip_id s) by done.
  rewrite lstrip_id; [apply reverse_involutive|].
  intros c Hc. by apply H, elem_of_reverse.
Qed.

Lemma span_digits_spec s ds rest :
  span_digits s = (ds, rest) →
  ∃ pre, s = pre ++ rest ∧ Forall2 (λ c d, to_decimal c = Some d) pre ds.
Proof.
  revert ds rest. induction s as [|c s IH]; intros ds rest; simpl.
  - intros [= <- <-]. by exists [].
  - destruct (to_decimal c) as [d|] eqn:Hc.
    + destruct (span_digits s) as [ds' rest'].
      intros [= <- <-]. destruct (IH _ _ eq_refl) as (pre & -> & Hpre).
      exists (c :: pre). split; [done|]. by constructor.
    + intros [= <- <-]. by exists [].
Qed.

Lemma digitpart_tail_digits pre ds :
  Forall2 (λ c d, to_decimal c = Some d) pre ds →
  digitpart_tail pre = (ds, []).
Proof.
  induction 1 as [|c d pre ds Hc _ IH]; [done|].
  simpl. by rewrite Hc, IH.
Qed.

(** [int] accepts a run of decimal digits that is not empty. *)
Lemma int_of_str_digits pre ds :
  pre ≠ [] → Forall2 (λ c d, to_decimal c = Some d) pre ds →
  int_of_str pre = Some (int_of_digits ds).
Proof.
  intros Hne H. unfold int_of_str. rewrite strip_id.
  - destruct H as [|c d pre ds Hc H]; [done|]. unfold sign.
    destruct (c =? 45)%N eqn:E1; [apply N.eqb_eq in E1 as ->; done|].
    destruct (c =? 43)%N eqn:E2; [apply N.eqb_eq in E2 as ->; done|].
    simpl. by rewrite Hc, (digitpart_tail_digits _ _ H).
  - intros c Hc. apply list_elem_of_lookup in Hc as [i Hi].
    destruct (Forall2_lookup_l _ _ _ _ _ H Hi) as (d & _ & Hd).
    by eapply decimal_not_space.
Qed.


End NumericCell.

(** ** The totals when every Block header has a name *)

Section Totals.

Lemma omap_seq_lookup {A B} (l : list A) (f : nat → option B) (g : A → B) :
  (∀ i x, l !! i = Some x → f i = Some (g x)) →
  omap f (seq 0 (length l)) = g <$> l.
Proof.
  induction l as [|x l IH] using rev_ind; intros H; [done|].
  rewrite length_app. change (length [x]) with 1%nat.
  rewrite Nat.add_1_r, seq_S, omap_app, fmap_app, IH.
  - simpl. by rewrite (H (length l) x) by by apply list_lookup_middle.
  - intros i y Hi. apply H. by apply lookup_app_l_Some.
Qed.

Lemma totals_inv_init : totals_inv init_state.
Proof. done. Qed.

Lemma totals_inv_step st row :
  named_header row → totals_inv st → totals_inv (process_row st row).
Proof.
  intros Hrow Hinv. pose proof Hinv as (Hc & Hh & Hb).
  rewrite process_row_three_branches.
  destruct (is_blank row) eqn:Hblank; [done|].
  destruct (block_guard _ _) eqn:Hg.
  { destruct (Hrow Hblank Hg) as [[g1 g2] ->].
    destruct (credits_hours_or_zero _ _) as [cr h].
    assert (blocks (append_current_block st) =
            seq 0 (length (block_store st))) as Hb'.
    { rewrite <- Hb. unfold append_current_block.
      destruct (current_block st); simpl; [done|by rewrite app_nil_r]. }
    assert (block_store (append_current_block st) = block_store st
            ∧ total_credits (append_current_block st) = total_credits st
            ∧ total_hours (append_current_block st) = total_hours st)
      as (Es & Ec & Eh)
      by (unfold append_current_block; by destruct (current_block st)).
    unfold totals_inv, open_block. simpl. rewrite Es, Ec, Eh, Hb'.
    rewrite !fmap_app, !fold_left_app, length_app, <- Hc, <- Hh.
    change (length [?x]) with 1%nat. rewrite Nat.add_1_r, seq_S.
    by repeat split. }
  destruct (module_guard _ _ _ _).
  { destruct (current_block st) as [a|] eqn:Ha; [|done].
    destruct (credits_hours_or_zero _ _) as [cr h].
    destruct (num_pos cr || (0 <? h)); [|done].
    unfold totals_inv. simpl.
    rewrite (list_fmap_alter b_total_credits _ id) by by apply Forall_true.
    rewrite (list_fmap_alter b_total_hours _ id) by by apply Forall_true.
    rewrite !list_alter_id by done. by rewrite length_alter, Ha. }
  destruct (is_discipline_row row); [|done].
  repeat case_match; try done.
  unfold append_discipline. by destruct (current_module st).
Qed.

Lemma totals_inv_steps rows st :
  Forall named_header rows → totals_inv st →
  totals_inv (fold_left process_row rows st).
Proof.
  revert st. induction rows as [|row rows IH]; intros st Hrows H; [done|].
  apply Forall_cons in Hrows as [Hrow Hrows].
  simpl. by apply IH, totals_inv_step.
Qed.

(** X23: when every row that enters the Block branch also matches the
    pattern with the name, each opened block is listed once, and the program
    totals are the sums over the listed blocks, computed by the same additions
    in the same order. *)
Lemma totals_of_named_headers lower rows :
  Forall named_header rows →
  sum_credits (cur_blocks (parse_curriculum_csv lower rows)) =
    pi_total_credits (program_info (parse_curriculum_csv lower rows))
  ∧ sum_hours (cur_blocks (parse_curriculum_csv lower rows)) =
    pi_total_hours (program_info (parse_curriculum_csv lower rows)).
Proof.
  intros Hrows. simpl. unfold classify.
  destruct (totals_inv_steps rows init_state Hrows totals_inv_init)
    as (Hc & Hh & Hb).
  remember (fold_left process_row rows init_state) as st eqn:E. clear E.
  assert (tree_blocks (append_current_block st) =
          (λ blk, mkBlock (block_number blk) (block_name blk)
                    (b_total_credits blk) (b_total_hours blk)
                    (omap (λ m, module_store st !! m) (b_modules blk)))
          <$> block_store st) as ->.
  { unfold tree_blocks.
    replace (blocks (append_current_block st))
      with (seq 0 (length (block_store st))).
    - apply omap_seq_lookup. intros i x Hi. unfold resolve_block.
      unfold append_current_block.
      destruct (current_block st); simpl; by rewrite Hi.
    - rewrite <- Hb. unfold append_current_block.
      destruct (current_block st); simpl; [done|by rewrite app_nil_r]. }
  unfold sum_credits, sum_hours. rewrite <- !list_fmap_compose.
  unfold append_current_block.
  destruct (current_block st); simpl; by rewrite Hc, Hh.
Qed.

End Totals.

(** ** Properties of the aggregator *)

Section Distribution.

Lemma semester_key_inj j k : semester_key j = semester_key k → j = k.
Proof.
  unfold semester_key. intros H.
  apply (inj (String.app "semester_")) in H. by apply (inj pretty) in H.
Qed.

(** The keys of the distribution are those of the semesters 1 to 4. *)
Lemma init_distribution_lookup k :
  init_distribution !! semester_key k =
  if bool_decide (1 ≤ k ≤ 4) then Some zero_bucket else None.
Proof.
  case_bool_decide as Hk.
  - assert (k = 1 ∨ k = 2 ∨ k = 3 ∨ k = 4) as [->|[->|[->| ->]]] by lia;
      reflexivity.
  - unfold init_distribution.
    rewrite !lookup_insert_ne, lookup_empty; [done|..];
      intros H; [apply (semester_key_inj 4) in H|apply (semester_key_inj 3) in H
                |apply (semester_key_inj 2) in H|apply (semester_key_inj 1) in H];
      lia.
Qed.

(** One step of the loop changes at most the bucket of the semester of the
    discipline, and only when that bucket exists. *)
Lemma distribute_lookup dist d k :
  distribute dist d !! semester_key k =
  if decide (d_semester d = Some k)
  then add_to_bucket d <$> dist !! semester_key k
  else dist !! semester_key k.
Proof.
  unfold distribute. destruct (d_semester d) as [n|] eqn:Hn.
  - destruct (decide (Some n = Some k)) as [[= ->]|Hne].
    + destruct (dist !! semester_key k) eqn:Hk; [|by rewrite Hk].
      by rewrite lookup_insert_eq.
    + destruct (dist !! semester_key n); [|done].
      rewrite lookup_insert_ne; [done|].
      intros H%semester_key_inj. congruence.
  - by destruct (decide (None = Some k)).
Qed.

Lemma distribute_fold_lookup ds dist k :
  fold_left distribute ds dist !! semester_key k =
  fold_left (λ ob d, add_to_bucket d <$> ob) (of_semester k ds)
    (dist !! semester_key k).
Proof.
  revert dist. induction ds as [|d ds IH]; intros dist; [done|].
  simpl. rewrite IH, distribute_lookup. unfold of_semester.
  rewrite filter_cons. by destruct (decide (d_semester d = Some k)).
Qed.

Lemma fold_bucket_Some ds b :
  fold_left (λ ob d, add_to_bucket d <$> ob) ds (Some b) =
  Some (fold_left (λ b d, add_to_bucket d b) ds b).
Proof. revert b. induction ds as [|d ds IH]; intros b; [done|]. apply IH. Qed.

Lemma fold_bucket_None ds :
  fold_left (λ ob d, add_to_bucket d <$> ob) ds None = None.
Proof. induction ds as [|d ds IH]; [done|]. apply IH. Qed.

Lemma fold_bucket_count ds b :
  bk_disciplines (fold_left (λ b d, add_to_bucket d b) ds b) =
  bk_disciplines b + Z.of_nat (length ds).
Proof.
  revert b. induction ds as [|d ds IH]; intros b; simpl; [lia|].
  rewrite IH. simpl. lia.
Qed.

(** The buckets of the distribution computed from the initial one. *)
Lemma distribution_lookup ds k :
  fold_left distribute ds init_distribution !! semester_key k =
  if bool_decide (1 ≤ k ≤ 4)
  then Some (fold_left (λ b d, add_to_bucket d b) (of_semester k ds) zero_bucket)
  else None.
Proof.
  rewrite distribute_fold_lookup, init_distribution_lookup.
  case_bool_decide; [apply fold_bucket_Some | apply fold_bucket_None].
Qed.

Lemma bucket_count_distribution ds k :
  1 ≤ k ≤ 4 →
  bucket_count (fold_left distribute ds init_distribution) k =
  Z.of_nat (length (of_semester k ds)).
Proof.
  intros Hk. unfold bucket_count. rewrite distribution_lookup.
  rewrite bool_decide_eq_true_2 by done. simpl. by rewrite fold_bucket_count.
Qed.

(** A discipline is counted for at most one semester. *)
Lemma of_semester_lengths ds :
  (length (of_semester 1 ds) + length (of_semester 2 ds)
   + length (of_semester 3 ds) + length (of_semester 4 ds) ≤ length ds)%nat.
Proof.
  unfold of_semester. induction ds as [|d ds IH]; [done|].
  rewrite !filter_cons. simpl.
  repeat case_decide; simpl; try lia; congruence.
Qed.

End Distribution.

Section Summary.

Variable lower : str → str.

Abbreviation is_practical := (is_practical lower).
Abbreviation extract_summary_info := (extract_summary_info lower).

(** The test on the longer keyword adds nothing to the test on the shorter. *)
Lemma startswith_app p q s : startswith (p ++ q) s = true → startswith p s = true.
Proof.
  revert s. induction p as [|a p IH]; intros s; [done|].
  destruct s as [|b s]; [done|]. simpl.
  intros [-> H]%andb_prop. simpl. by apply IH.
Qed.

Lemma contains_app p q s : contains (p ++ q) s = true → contains p s = true.
Proof.
  induction s as [|b s IH]; simpl.
  - rewrite !orb_false_r. apply startswith_app.
  - intros [H|H]%orb_prop; apply orb_true_intro;
      [left; by eapply startswith_app | right; by apply IH].
Qed.

Lemma is_practical_keyword m :
  is_practical m = contains (utf8 "практик") (lower (module_name m)).
Proof.
  unfold is_practical.
  destruct (contains (utf8 "практик") _) eqn:H; [apply orb_true_r|].
  rewrite orb_false_r. apply not_true_is_false. intros H'.
  change (utf8 "практика") with (utf8 "практик" ++ utf8 "а") in H'.
  apply contains_app in H'. congruence.
Qed.

(** The loop over the modules of a block, in closed form. *)
Lemma summary_add_module_fold ms s :
  fold_left (summary_add_module lower) ms s =
  mkSummary
    (total_disciplines s + Z.of_nat (length (ms ≫= m_disciplines)))
    (semesters_count s) (blocks_count s) (modules_count s)
    (fold_left add_work (filter (λ m, is_practical m) ms) (practical_work s))
    (fold_left add_work (filter (λ m, ¬ is_practical m) ms)
       (theoretical_work s))
    (fold_left distribute (ms ≫= m_disciplines) (semester_distribution s)).
Proof.
  revert s. induction ms as [|m ms IH]; intros s.
  - destruct s. simpl. f_equal. lia.
  - cbn [fold_left]. rewrite IH. unfold summary_add_module.
    cbn [total_disciplines semesters_count blocks_count modules_count
         practical_work theoretical_work semester_distribution].
    rewrite !filter_cons, bind_cons, length_app, fold_left_app.
    destruct (is_practical m) eqn:Hp; simpl.
    + destruct (decide (¬ True)) as [[]|_]; [done|]. f_equal. lia.
    + destruct (decide (¬ False)) as [_|[]]; [|tauto].
      f_equal. lia.
Qed.

(** The loop over the blocks, in closed form. *)
Lemma summary_add_block_fold bs s :
  fold_left (summary_add_block lower) bs s =
  mkSummary
    (total_disciplines s + Z.of_nat (length (all_disciplines bs)))
    (semesters_count s) (blocks_count s)
    (modules_count s + Z.of_nat (length (all_modules bs)))
    (fold_left add_work (filter (λ m, is_practical m) (all_modules bs))
       (practical_work s))
    (fold_left add_work (filter (λ m, ¬ is_practical m) (all_modules bs))
       (theoretical_work s))
    (fold_left distribute (all_disciplines bs) (semester_distribution s)).
Proof.
  unfold all_disciplines, all_modules.
  revert s. induction bs as [|b bs IH]; intros s.
  - destruct s. simpl. f_equal; lia.
  - cbn [fold_left]. rewrite IH. unfold summary_add_block.
    rewrite summary_add_module_fold.
    cbn [total_disciplines semesters_count blocks_count modules_count
         practical_work theoretical_work semester_distribution].
    rewrite !bind_cons, !bind_app, !filter_app, !length_app, !fold_left_app.
    f_equal; lia.
Qed.

Lemma extract_summary_info_closed bs :
  extract_summary_info bs =
  mkSummary
    (Z.of_nat (length (all_disciplines bs))) 4 (Z.of_nat (length bs))
    (Z.of_nat (length (all_modules bs)))
    (fold_left add_work (filter (λ m, is_practical m) (all_modules bs))
       zero_work)
    (fold_left add_work (filter (λ m, ¬ is_practical m) (all_modules bs))
       zero_work)
    (fold_left distribute (all_disciplines bs) init_distribution).
Proof. unfold extract_summary_info. by rewrite summary_add_block_fold. Qed.

End Summary.

(** ** The claims about the whole function *)

Section Claims.

Variable lower : str → str.

Abbreviation parse := (parse_curriculum_csv lower).

(** C6 (Scenario A): the single row [("", "Блок 1. Дисциплины", "10", "360")]
    yields exactly one Block with number 1, name "Дисциплины", 10.0 credits,
    360 hours and no modules, and program totals of 10.0 credits and
    360 hours. *)
Theorem scenario_single_block :
  let out := parse [row_of "" "Блок 1. Дисциплины" "10" "360"] in
  cur_blocks out = [mkBlock 1 (utf8 "Дисциплины") (PyFloat 10) 360 []]
  ∧ pi_total_credits (program_info out) = PyFloat 10
  ∧ pi_total_hours (program_info out) = 360.
Proof. by vm_compute. Qed.

(** C1, at the input on which the code breaks it: a header that passes the
    test [Блок \d+\.] but not the pattern with the name makes the code append
    the open block and keep it open, so it is appended a second time at the
    end. The credits of the listed blocks then sum to 20.0 and the hours to
    720, while the program totals are 10.0 and 360. *)
Theorem repeated_block_breaks_totals :
  let out := parse [row_of "" "Блок 1. Дисциплины" "10" "360";
                    row_of "" "Блок 2.Практика" "5" "180"] in
  cur_blocks out = [mkBlock 1 (utf8 "Дисциплины") (PyFloat 10) 360 [];
                    mkBlock 1 (utf8 "Дисциплины") (PyFloat 10) 360 []]
  ∧ sum_credits (cur_blocks out) = PyFloat 20
  ∧ pi_total_credits (program_info out) = PyFloat 10
  ∧ sum_hours (cur_blocks out) = 720
  ∧ pi_total_hours (program_info out) = 360.
Proof. by vm_compute. Qed.

(** C3, at an input on which the spec expects a Discipline without semester:
    with the Module "Модуль" open, the row [("", "Подмодуль", "2", "72")]
    meets the condition of the Module branch, which comes first, and opens a
    second Module; no Discipline is appended. *)
Theorem plain_row_opens_module :
  cur_blocks (parse [row_of "" "Блок 1. Дисциплины" "10" "360";
                     row_of "" "Модуль" "3" "108";
                     row_of "" "Подмодуль" "2" "72"]) =
  [mkBlock 1 (utf8 "Дисциплины") (PyFloat 10) 360
     [mkModule (utf8 "Модуль") (PyFloat 3) 108 [];
      mkModule (utf8 "Подмодуль") (PyFloat 2) 72 []]].
Proof. by vm_compute. Qed.

(** No input yields a Discipline without semester: the branch that would
    create one has the condition of the Module branch and is never entered. *)
Lemma every_discipline_has_semester rows d :
  d ∈ all_disciplines (cur_blocks (parse rows)) → is_Some (d_semester d).
Proof.
  unfold all_disciplines. rewrite list_elem_of_bind. intros (m & Hd & Hm).
  revert d Hd. apply Forall_forall. revert m Hm. apply Forall_forall.
  apply (classified_modules
           (λ m, Forall (λ d, is_Some (d_semester d)) (m_disciplines m))).
  - intros. constructor.
  - intros m n name cr h Hm. simpl. apply Forall_app. split; [done|].
    by repeat constructor.
Qed.


End Claims.


Section Corrected.

Variable lower : str → str.

Abbreviation parse := (parse_curriculum_csv lower).

(** What two runs of the classifier that end in the same state share. *)
Lemma parse_same_state rows rows' :
  classify rows = classify rows' →
  cur_blocks (parse rows) = cur_blocks (parse rows')
  ∧ summary (parse rows) = summary (parse rows')
  ∧ pi_total_credits (program_info (parse rows)) =
    pi_total_credits (program_info (parse rows'))
  ∧ pi_total_hours (program_info (parse rows)) =
    pi_total_hours (program_info (parse rows'))
  ∧ (program_title rows = program_title rows' → parse rows = parse rows').
Proof.
  intros H. unfold parse_curriculum_csv. simpl. rewrite H.
  repeat split; try done. by intros ->.
Qed.

(** A row that leaves the state in which it is read unchanged can be taken
    out of the input. *)
Lemma skipped_row_removed pre row post :
  process_row (state_after pre) row = state_after pre →
  classify (pre ++ row :: post) = classify (pre ++ post).
Proof.
  intros H. unfold classify, state_after in *.
  rewrite !fold_left_app. simpl. by rewrite H.
Qed.

Lemma program_title_app pre row post :
  pre ≠ [] → program_title (pre ++ row :: post) = program_title (pre ++ post).
Proof. by destruct pre. Qed.

(** C7, amended: a blank row changes neither the state of the classifier nor
    the blocks, the program totals or the summary, wherever it is inserted;
    the whole output is the same when the blank row is not inserted at the
    front, where it supplies the title, the empty string. *)
Theorem blank_row_insertion pre post :
  (∀ st, process_row st blank_row = st)
  ∧ classify (pre ++ blank_row :: post) = classify (pre ++ post)
  ∧ cur_blocks (parse (pre ++ blank_row :: post)) =
    cur_blocks (parse (pre ++ post))
  ∧ summary (parse (pre ++ blank_row :: post)) = summary (parse (pre ++ post))
  ∧ pi_total_credits (program_info (parse (pre ++ blank_row :: post))) =
    pi_total_credits (program_info (parse (pre ++ post)))
  ∧ pi_total_hours (program_info (parse (pre ++ blank_row :: post))) =
    pi_total_hours (program_info (parse (pre ++ post)))
  ∧ (pre ≠ [] → parse (pre ++ blank_row :: post) = parse (pre ++ post))
  ∧ title (program_info (parse (blank_row :: post))) = [].
Proof.
  split; [done|].
  assert (classify (pre ++ blank_row :: post) = classify (pre ++ post)) as H
    by by apply skipped_row_removed.
  split; [done|].
  destruct (parse_same_state _ _ H) as (? & ? & ? & ? & Ht).
  repeat split; try done.
  intros Hpre. by apply Ht, program_title_app.
Qed.

(** C8, amended: a Discipline row read while no Module is open changes
    neither the state of the classifier nor the blocks, the program totals or
    the summary; the whole output is the same as without the row when the row
    is not the first one, whose first cell is the title. *)
Theorem orphan_discipline_row_dropped pre row post :
  is_discipline_row row = true →
  current_module (state_after pre) = None →
  process_row (state_after pre) row = state_after pre
  ∧ cur_blocks (parse (pre ++ row :: post)) = cur_blocks (parse (pre ++ post))
  ∧ summary (parse (pre ++ row :: post)) = summary (parse (pre ++ post))
  ∧ pi_total_credits (program_info (parse (pre ++ row :: post))) =
    pi_total_credits (program_info (parse (pre ++ post)))
  ∧ pi_total_hours (program_info (parse (pre ++ row :: post))) =
    pi_total_hours (program_info (parse (pre ++ post)))
  ∧ (pre ≠ [] → parse (pre ++ row :: post) = parse (pre ++ post))
  ∧ title (program_info (parse (row :: post))) = c1 row.
Proof.
  intros Hrow Hm.
  assert (process_row (state_after pre) row = state_after pre) as Hstep
    by by apply numbered_row_no_module; [apply discipline_row_numbered|].
  split; [done|].
  destruct (parse_same_state _ _ (skipped_row_removed pre row post Hstep))
    as (? & ? & ? & ? & Ht).
  repeat split; try done.
  intros Hpre. by apply Ht, program_title_app.
Qed.


End Corrected.

Section CorrectedSummary.

Variable lower : str → str.

Abbreviation parse := (parse_curriculum_csv lower).
Abbreviation practical := (is_practical lower).

(** C4, amended: every Module of the tree has credits or hours greater than
    zero (either may be negative when the other is positive), and its credits
    and hours are accumulated into exactly one of [practical_work] and
    [theoretical_work]: into [practical_work] exactly when its lower-cased
    name contains "практик". *)
Theorem modules_split_by_keyword rows :
  (∀ m, m ∈ all_modules (cur_blocks (parse rows)) →
     num_pos (m_credits m) || (0 <? m_hours m) = true)
  ∧ practical_work (summary (parse rows)) =
    fold_left add_work
      (filter (λ m, practical m) (all_modules (cur_blocks (parse rows))))
      zero_work
  ∧ theoretical_work (summary (parse rows)) =
    fold_left add_work
      (filter (λ m, ¬ practical m) (all_modules (cur_blocks (parse rows))))
      zero_work
  ∧ (∀ m, practical m = contains (utf8 "практик") (lower (module_name m))).
Proof.
  split; [|split; [|split]].
  - apply Forall_forall. simpl.
    apply (classified_modules
             (λ m, num_pos (m_credits m) || (0 <? m_hours m) = true));
      by intros.
  - simpl. by rewrite extract_summary_info_closed.
  - simpl. by rewrite extract_summary_info_closed.
  - apply is_practical_keyword.
Qed.

(** C5, amended: the bucket of semester k, for k from 1 to 4, holds the
    credits, the hours and the number of the visited Disciplines whose
    semester is k, so a Discipline with a semester from 1 to 4 is added into
    exactly one bucket; there is no bucket for another semester, so a
    Discipline with such a semester is added into none; and the counts of the
    four buckets sum to at most [total_disciplines]. *)
Theorem semester_buckets rows :
  (∀ k, 1 ≤ k ≤ 4 →
     semester_distribution (summary (parse rows)) !! semester_key k =
     Some (fold_left (λ b d, add_to_bucket d b)
             (of_semester k (all_disciplines (cur_blocks (parse rows))))
             zero_bucket))
  ∧ (∀ k, ¬ (1 ≤ k ≤ 4) →
       semester_distribution (summary (parse rows)) !! semester_key k = None)
  ∧ counted_disciplines (semester_distribution (summary (parse rows)))
    ≤ total_disciplines (summary (parse rows)).
Proof.
  simpl. rewrite extract_summary_info_closed. simpl.
  split; [|split].
  - intros k Hk. rewrite distribution_lookup.
    by rewrite bool_decide_eq_true_2.
  - intros k Hk. rewrite distribution_lookup.
    by rewrite bool_decide_eq_false_2.
  - unfold counted_disciplines. rewrite !bucket_count_distribution by lia.
    pose proof (of_semester_lengths
                  (all_disciplines (tree_blocks (classify rows)))). lia.
Qed.

(** C10, amended: a Discipline row whose c1 is an integer outside 1..4 and
    whose c3 and c4 parse is appended, with that semester, to the open Module;
    the aggregator counts it in [total_disciplines] and leaves the semester
    distribution as it is without it. *)
Theorem out_of_range_semester st row m n credits hours :
  is_discipline_row row = true →
  int_of_str (col1 row) = Some n → ¬ (1 ≤ n ≤ 4) →
  credits_of (col3 row) = Some credits → hours_of (col4 row) = Some hours →
  current_module st = Some m →
  let d := mkDiscipline (Some n) (col2 row) credits hours in
  module_store (process_row st row) !! m =
    add_discipline d <$> module_store st !! m
  ∧ (∀ ds s mo,
       semester_distribution s = fold_left distribute ds init_distribution →
       total_disciplines (summary_add_module lower s (add_discipline d mo)) =
         total_disciplines (summary_add_module lower s mo) + 1
       ∧ semester_distribution
           (summary_add_module lower s (add_discipline d mo)) =
         semester_distribution (summary_add_module lower s mo)).
Proof.
  intros Hrow Hn Hout Hc Hh Hm d. split.
  - rewrite numbered_row_step by by apply discipline_row_numbered.
    rewrite Hrow, Hn, Hc, Hh. unfold append_discipline. rewrite Hm. simpl.
    apply list_lookup_alter_eq.
  - intros ds s mo Hs. unfold summary_add_module.
    cbn [total_disciplines semester_distribution add_discipline m_disciplines].
    split.
    + rewrite length_app. simpl. lia.
    + rewrite Hs, fold_left_app. cbn [fold_left].
      rewrite <- !(fold_left_app distribute ds (m_disciplines mo)).
      unfold distribute at 1. cbn [d_semester d].
      by rewrite distribution_lookup, bool_decide_eq_false_2.
Qed.

End CorrectedSummary.

(** ** Concrete inputs *)

(** Scenarios B, C and E of the specification in one run: a practice Module
    opened in Block 1 receives a Discipline of semester 1, which is added to
    the bucket of that semester, and the Module counts as practical work. *)
Example scenario_module_and_discipline :
  let out := parse_curriculum_csv basic_lower
               [row_of "" "Блок 1. Дисциплины" "10" "360";
                row_of "" "Практика" "6" "216";
                row_of "1" "Машинное обучение" "5" "180"] in
  cur_blocks out =
    [mkBlock 1 (utf8 "Дисциплины") (PyFloat 10) 360
       [mkModule (utf8 "Практика") (PyFloat 6) 216
          [mkDiscipline (Some 1) (utf8 "Машинное обучение") (PyFloat 5) 180]]]
  ∧ practical_work (summary out) = mkWork (PyFloat 6) 216
  ∧ theoretical_work (summary out) = mkWork (PyInt 0) 0
  ∧ semester_distribution (summary out) !! "semester_1"
    = Some (mkBucket (PyFloat 5) 180 1).
Proof. by vm_compute. Qed.

(** C7 as stated fails: a blank row in front of the row that holds the title
    replaces the title by the empty string. *)
Lemma blank_row_at_front_changes_title :
  let rows := [row_of "Учебный план магистратуры" "" "" ""] in
  title (program_info (parse_curriculum_csv basic_lower rows)) =
    utf8 "Учебный план магистратуры"
  ∧ title (program_info (parse_curriculum_csv basic_lower (blank_row :: rows)))
    = []
  ∧ parse_curriculum_csv basic_lower (blank_row :: rows) ≠
    parse_curriculum_csv basic_lower rows.
Proof.
  split; [reflexivity|]. split; [reflexivity|].
  intros H. apply (f_equal (λ out, title (program_info out))) in H.
  vm_compute in H. discriminate H.
Qed.

(** A blank row between a Block header and a Module row. *)
Lemma blank_row_insertion_witness :
  let pre := [row_of "" "Блок 1. Дисциплины" "10" "360"] in
  let post := [row_of "" "Модуль" "3" "108"] in
  pre ≠ []
  ∧ parse_curriculum_csv basic_lower (pre ++ blank_row :: post) =
    parse_curriculum_csv basic_lower (pre ++ post).
Proof.
  split; [discriminate|].
  apply (blank_row_insertion basic_lower). discriminate.
Defined.

(** C8 as stated fails: a Discipline row that is the first row is dropped by
    the classifier but supplies the title. *)
Lemma orphan_first_row_changes_title :
  let row := row_of "1" "Математика" "5" "180" in
  let post := [row_of "" "Блок 1. Дисциплины" "10" "360"] in
  is_discipline_row row = true
  ∧ current_module (state_after []) = None
  ∧ title (program_info (parse_curriculum_csv basic_lower (row :: post))) =
    utf8 "1"
  ∧ title (program_info (parse_curriculum_csv basic_lower post)) = []
  ∧ parse_curriculum_csv basic_lower (row :: post) ≠
    parse_curriculum_csv basic_lower post.
Proof.
  repeat (split; [reflexivity|]).
  intros H. apply (f_equal (λ out, title (program_info out))) in H.
  vm_compute in H. discriminate H.
Qed.

(** A Discipline row right after a Block header, where no Module is open. *)
Lemma orphan_discipline_row_dropped_witness :
  let pre := [row_of "" "Блок 1. Дисциплины" "10" "360"] in
  let row := row_of "1" "Математика" "5" "180" in
  is_discipline_row row = true
  ∧ current_module (state_after pre) = None
  ∧ pre ≠ []
  ∧ parse_curriculum_csv basic_lower (pre ++ row :: []) =
    parse_curriculum_csv basic_lower (pre ++ []).
Proof.
  split; [reflexivity|]. split; [reflexivity|]. split; [discriminate|].
  apply (orphan_discipline_row_dropped basic_lower); [reflexivity..|discriminate].
Defined.



(** C4 as stated fails: negative credits with positive hours open a Module
    whose credits are negative. *)
Lemma negative_module_credits :
  cur_blocks (parse_curriculum_csv basic_lower
                [row_of "" "Блок 1. Дисциплины" "10" "360";
                 row_of "" "Модуль" "-5" "10"]) =
  [mkBlock 1 (utf8 "Дисциплины") (PyFloat 10) 360
     [mkModule (utf8 "Модуль") (PyFloat (-5)) 10 []]]
  ∧ num_nonneg (PyFloat (-5)) = false.
Proof. by vm_compute. Qed.

(** A practice Module with 6 credits and 216 hours. *)
Lemma modules_split_by_keyword_witness :
  let rows := [row_of "" "Блок 1. Дисциплины" "10" "360";
               row_of "" "Производственная практика" "6" "216"] in
  let m := mkModule (utf8 "Производственная практика") (PyFloat 6) 216 [] in
  m ∈ all_modules (cur_blocks (parse_curriculum_csv basic_lower rows))
  ∧ num_pos (m_credits m) || (0 <? m_hours m) = true.
Proof.
  split; [vm_compute; left|].
  apply (proj1 (modules_split_by_keyword basic_lower
                  [row_of "" "Блок 1. Дисциплины" "10" "360";
                   row_of "" "Производственная практика" "6" "216"])).
  vm_compute. left.
Defined.

(** C5 as stated fails: a Discipline that carries semester 5 is in the tree
    and in no bucket. *)
Lemma fifth_semester_in_no_bucket :
  let out := parse_curriculum_csv basic_lower
               [row_of "" "Блок 1. Дисциплины" "10" "360";
                row_of "" "Модуль" "3" "108";
                row_of "5" "Стажировка" "2" "72"] in
  all_disciplines (cur_blocks out) =
    [mkDiscipline (Some 5) (utf8 "Стажировка") (PyFloat 2) 72]
  ∧ semester_distribution (summary out) = init_distribution
  ∧ total_disciplines (summary out) = 1.
Proof. by vm_compute. Qed.

(** The bucket of semester 1 after one Discipline of that semester, and no
    bucket for semester 5. *)
Lemma semester_buckets_witness :
  let out := parse_curriculum_csv basic_lower
               [row_of "" "Блок 1. Дисциплины" "10" "360";
                row_of "" "Модуль" "3" "108";
                row_of "1" "Машинное обучение" "5" "180"] in
  (1 ≤ 1 ≤ 4
   ∧ semester_distribution (summary out) !! semester_key 1 =
     Some (fold_left (λ b d, add_to_bucket d b)
             (of_semester 1 (all_disciplines (cur_blocks out))) zero_bucket))
  ∧ (¬ (1 ≤ 5 ≤ 4)
     ∧ semester_distribution (summary out) !! semester_key 5 = None).
Proof.
  split.
  - split; [lia|]. apply (semester_buckets basic_lower). lia.
  - split; [lia|]. apply (semester_buckets basic_lower). lia.
Defined.

(** C10 as stated fails: a Discipline row for semester 5 whose credits do not
    parse is not appended to the open Module. *)
Lemma out_of_range_row_unparsable :
  let st := state_after [row_of "" "Блок 1. Дисциплины" "10" "360";
                         row_of "" "Модуль" "3" "108"] in
  let row := row_of "5" "Стажировка" "2,5" "72" in
  is_discipline_row row = true
  ∧ int_of_str (col1 row) = Some 5
  ∧ current_module st = Some 0%nat
  ∧ process_row st row = st
  ∧ module_store st = [mkModule (utf8 "Модуль") (PyFloat 3) 108 []].
Proof. by vm_compute. Qed.

(** A Discipline of semester 5 that parses, read while a Module is open. *)
Lemma out_of_range_semester_witness :
  let st := state_after [row_of "" "Блок 1. Дисциплины" "10" "360";
                         row_of "" "Модуль" "3" "108"] in
  let row := row_of "5" "Стажировка" "2" "72" in
  let d := mkDiscipline (Some 5) (utf8 "Стажировка") (PyFloat 2) 72 in
  (is_discipline_row row = true ∧ int_of_str (col1 row) = Some 5
   ∧ ¬ (1 ≤ 5 ≤ 4) ∧ credits_of (col3 row) = Some (PyFloat 2)
   ∧ hours_of (col4 row) = Some 72 ∧ current_module st = Some 0%nat)
  ∧ module_store (process_row st row) !! 0%nat =
    add_discipline d <$> module_store st !! 0%nat
  ∧ (∀ ds s mo,
       semester_distribution s = fold_left distribute ds init_distribution →
       total_disciplines
         (summary_add_module basic_lower s (add_discipline d mo)) =
         total_disciplines (summary_add_module basic_lower s mo) + 1
       ∧ semester_distribution
           (summary_add_module basic_lower s (add_discipline d mo)) =
         semester_distribution (summary_add_module basic_lower s mo)).
Proof.
  split; [repeat split; try reflexivity; lia|].
  exact (out_of_range_semester basic_lower
           (state_after [row_of "" "Блок 1. Дисциплины" "10" "360";
                         row_of "" "Модуль" "3" "108"])
           (row_of "5" "Стажировка" "2" "72") 0%nat 5 (PyFloat 2) 72
           eq_refl eq_refl ltac:(lia) eq_refl eq_refl eq_refl).
Defined.

(** ** Stripping twice *)

Section Strip.

Lemma lstrip_suffix s : ∃ k, s = k ++ lstrip s.
Proof.
  induction s as [|c s [k IH]]; [by exists []|]. simpl.
  destruct (isspace c); [|by exists []].
  exists (c :: k). simpl. by rewrite <- IH.
Qed.

Lemma lstrip_head s : head (lstrip s) = None ∨ ∃ c, head (lstrip s) = Some c ∧ isspace c = false.
Proof.
  destruct (lstrip s) as [|c r] eqn:E; [by left|].
  right. exists c. split; [done|]. by eapply lstrip_not_space.
Qed.

Lemma lstrip_fixed s :
  (∀ c, head s = Some c → isspace c = false) → lstrip s = s.
Proof. destruct s as [|c s]; [done|]. intros H. simpl. by rewrite H. Qed.

(** What [strip] returns starts and ends with characters that are not
    spaces. *)
Lemma strip_ends s c :
  head (strip s) = Some c ∨ last (strip s) = Some c → isspace c = false.
Proof.
  unfold strip. rewrite head_reverse, last_reverse.
  set (t := lstrip s). intros [H|H].
  - destruct (lstrip_suffix (reverse t)) as [k Hk].
    destruct (lstrip (reverse t)) as [|a u] eqn:Eu; [done|].
    assert (last (reverse t) = Some c) as Hl.
    { rewrite Hk, last_app. by rewrite H. }
    rewrite last_reverse in Hl. subst t.
    destruct (lstrip s) as [|b r] eqn:Es; [done|].
    injection Hl as ->. by eapply lstrip_not_space.
  - destruct (lstrip (reverse t)) as [|a u] eqn:Eu; [done|].
    injection H as ->. by eapply lstrip_not_space.
Qed.

Lemma strip_fixed s :
  (∀ c, head s = Some c ∨ last s = Some c → isspace c = false) →
  strip s = s.
Proof.
  intros H. unfold strip. rewrite (lstrip_fixed s) by (intros; apply H; auto).
  rewrite lstrip_fixed; [apply reverse_involutive|].
  intros c Hc. rewrite head_reverse in Hc. apply H. auto.
Qed.

(** [s.strip().strip() == s.strip()] *)
Lemma strip_strip s : strip (strip s) = strip s.
Proof. apply strip_fixed, strip_ends. Qed.

End Strip.

(** ** What the stored modules are made from *)

Section ModuleRows.

(** A property of the stored modules that holds of a module made from a row
    of the Module kind, and that appending the Discipline made from a
    Discipline row keeps, holds after every row. *)
Lemma module_store_rows (P : Module → Prop) rows st :
  (∀ row cr h,
     module_guard (col1 row) (col2 row) (col3 row) (col4 row) = true →
     credits_hours_or_zero (col3 row) (col4 row) = (cr, h) →
     num_pos cr || (0 <? h) = true →
     P (mkModule (col2 row) cr h [])) →
  (∀ m row n cr h,
     is_discipline_row row = true →
     int_of_str (col1 row) = Some n →
     credits_of (col3 row) = Some cr → hours_of (col4 row) = Some h →
     P m → P (add_discipline (mkDiscipline (Some n) (col2 row) cr h) m)) →
  Forall P (module_store st) →
  Forall P (module_store (fold_left process_row rows st)).
Proof.
  intros Hnew Happ. revert st.
  induction rows as [|row rows IH]; intros st HP; [done|].
  simpl. apply IH. rewrite process_row_three_branches.
  destruct (is_blank row); [done|].
  destruct (block_guard _ _).
  { unfold append_current_block.
    destruct (match_block _) as [[g1 g2]|];
      [destruct (credits_hours_or_zero _ _)|];
      by destruct (current_block st). }
  destruct (module_guard _ _ _ _) eqn:Hg.
  { destruct (current_block st); [|done].
    destruct (credits_hours_or_zero _ _) as [cr h] eqn:Hch.
    destruct (num_pos cr || (0 <? h)) eqn:Hpos; [|done].
    simpl. apply Forall_app; split; [done|].
    repeat constructor. by apply Hnew. }
  destruct (is_discipline_row row) eqn:Hd; [|done].
  destruct (int_of_str _) eqn:Hn; [|done].
  destruct (credits_of _) eqn:Hc; [|done].
  destruct (hours_of _) eqn:Hh; [|done].
  unfold append_discipline. destruct (current_module st); [|done].
  simpl. apply Forall_alter; [done|]. intros m _. by apply Happ.
Qed.

Lemma classified_module_rows (P : Module → Prop) rows :
  (∀ row cr h,
     module_guard (col1 row) (col2 row) (col3 row) (col4 row) = true →
     credits_hours_or_zero (col3 row) (col4 row) = (cr, h) →
     num_pos cr || (0 <? h) = true →
     P (mkModule (col2 row) cr h [])) →
  (∀ m row n cr h,
     is_discipline_row row = true →
     int_of_str (col1 row) = Some n →
     credits_of (col3 row) = Some cr → hours_of (col4 row) = Some h →
     P m → P (add_discipline (mkDiscipline (Some n) (col2 row) cr h) m)) →
  Forall P (all_modules (tree_blocks (classify rows))).
Proof.
  intros Hnew Happ. apply Forall_forall. intros m Hm.
  apply tree_modules_stored in Hm. unfold classify in Hm.
  rewrite module_store_append_current_block in Hm.
  revert m Hm. apply Forall_forall.
  by apply module_store_rows; [| |constructor].
Qed.

End ModuleRows.

(** ** Cleaning the names *)

Section Cleaning.

Lemma clean_module_stripped m : stripped_names m → clean_module m = m.
Proof.
  intros [Hn Hd]. destruct m as [name cr h ds]. unfold clean_module.
  simpl in *. rewrite Hn. f_equal.
  rewrite <- (list_fmap_id ds) at 2. apply Forall_fmap_ext_1.
  eapply Forall_impl; [done|]. intros [sem name' c hh] Hname.
  unfold clean_discipline. simpl in *. by rewrite Hname.
Qed.

Lemma clean_block_stripped (b : Block) :
  Forall stripped_names (b_modules b) → clean_block b = b.
Proof.
  intros H. destruct b as [n name cr h ms]. unfold clean_block. simpl in *.
  f_equal. rewrite <- (list_fmap_id ms) at 2. apply Forall_fmap_ext_1.
  eapply Forall_impl; [done|]. intros m Hm. by apply clean_module_stripped.
Qed.

(** X1: the names that [parse_curriculum_csv] stores are already stripped,
    so [clean_module_names] returns its result unchanged. *)
Theorem clean_after_parse lower rows :
  clean_module_names (parse_curriculum_csv lower rows) =
  parse_curriculum_csv lower rows.
Proof.
  unfold clean_module_names, parse_curriculum_csv. simpl. f_equal.
  assert (Forall stripped_names (all_modules (tree_blocks (classify rows))))
    as H.
  { apply classified_module_rows.
    - intros row cr h _ _ _. split; [apply strip_strip | constructor].
    - intros m row n cr h _ _ _ _ [Hn Hd]. split; [done|]. simpl.
      apply Forall_app. split; [done|]. repeat constructor. apply strip_strip. }
  unfold all_modules in H.
  rewrite <- (list_fmap_id (tree_blocks (classify rows))) at 2.
  apply Forall_fmap_ext_1, Forall_forall. intros b Hb.
  apply clean_block_stripped, Forall_forall. intros m Hm.
  rewrite Forall_forall in H. apply H.
  apply list_elem_of_bind. eauto.
Qed.

(** X2: cleaning twice is cleaning once, whatever the names are. *)
Theorem clean_module_names_idempotent data :
  clean_module_names (clean_module_names data) = clean_module_names data.
Proof.
  unfold clean_module_names. simpl. f_equal.
  rewrite <- list_fmap_compose. apply list_fmap_ext. intros _ b _.
  unfold clean_block, compose. simpl. f_equal.
  rewrite <- list_fmap_compose. apply list_fmap_ext. intros _ m _.
  unfold clean_module, compose. simpl. rewrite strip_strip. f_equal.
  rewrite <- list_fmap_compose. apply list_fmap_ext. intros _ d _.
  unfold clean_discipline, compose. simpl. by rewrite strip_strip.
Qed.

End Cleaning.

(** ** Rows before the first Block header *)

Section BeforeFirstHeader.

Lemma not_header_init row : not_header row → process_row init_state row = init_state.
Proof.
  intros H. rewrite process_row_three_branches. rewrite H.
  by repeat case_match.
Qed.

Lemma not_headers_init rows :
  Forall not_header rows → state_after rows = init_state.
Proof.
  unfold state_after. induction 1 as [|row rows H _ IH]; [done|].
  simpl. by rewrite not_header_init.
Qed.

Lemma classify_after_not_headers pre post :
  Forall not_header pre → classify (pre ++ post) = classify post.
Proof.
  intros H. unfold classify. rewrite fold_left_app.
  change (fold_left process_row pre init_state) with (state_after pre).
  by rewrite (not_headers_init pre H).
Qed.

(** X3: the rows before the first row that enters the Block branch leave no
    trace but the title: a Module row or a Discipline row read while no Block
    is open is dropped. With no such row at all the result has no blocks, and
    its totals and its summary are zero. *)
Theorem rows_before_first_header lower pre post :
  Forall not_header pre →
  state_after pre = init_state
  ∧ cur_blocks (parse_curriculum_csv lower (pre ++ post)) =
    cur_blocks (parse_curriculum_csv lower post)
  ∧ summary (parse_curriculum_csv lower (pre ++ post)) =
    summary (parse_curriculum_csv lower post)
  ∧ pi_total_credits (program_info (parse_curriculum_csv lower (pre ++ post)))
    = pi_total_credits (program_info (parse_curriculum_csv lower post))
  ∧ pi_total_hours (program_info (parse_curriculum_csv lower (pre ++ post)))
    = pi_total_hours (program_info (parse_curriculum_csv lower post))
  ∧ parse_curriculum_csv lower pre = empty_curriculum pre.
Proof.
  intros H. split; [by apply not_headers_init|].
  pose proof (classify_after_not_headers pre post H) as Hc.
  unfold parse_curriculum_csv. simpl. rewrite Hc.
  repeat split; try done.
  pose proof (classify_after_not_headers pre [] H) as Hc'.
  rewrite app_nil_r in Hc'. by rewrite Hc'.
Qed.

End BeforeFirstHeader.

(** A Module row and a Discipline row in front of the first header. *)
Lemma rows_before_first_header_witness :
  let pre := [row_of "" "Модуль" "3" "108";
              row_of "1" "Машинное обучение" "5" "180"] in
  let post := [row_of "" "Блок 1. Дисциплины" "10" "360"] in
  Forall not_header pre
  ∧ cur_blocks (parse_curriculum_csv basic_lower (pre ++ post)) =
    cur_blocks (parse_curriculum_csv basic_lower post)
  ∧ parse_curriculum_csv basic_lower pre = empty_curriculum pre.
Proof.
  assert (Forall not_header
            [row_of "" "Модуль" "3" "108";
             row_of "1" "Машинное обучение" "5" "180"]) as H
    by (repeat constructor).
  split; [exact H|].
  split;
    apply (rows_before_first_header basic_lower
             [row_of "" "Модуль" "3" "108";
              row_of "1" "Машинное обучение" "5" "180"]
             [row_of "" "Блок 1. Дисциплины" "10" "360"] H).
Defined.

(** ** The blocks and the header rows *)

Section Headers.

Lemma row_header_blank row : is_blank row = true → row_header row = None.
Proof.
  intros H. unfold row_header.
  destruct (block_guard _ _) eqn:Hg; [|done].
  apply block_row_not_blank in Hg. congruence.
Qed.

(** The stored blocks are those of the header rows read so far, in order. *)
Lemma block_store_headers_step st row :
  block_header <$> block_store (process_row st row) =
  (block_header <$> block_store st) ++ option_list (row_header row).
Proof.
  rewrite process_row_three_branches.
  destruct (is_blank row) eqn:Hb.
  { rewrite row_header_blank by done. by rewrite app_nil_r. }
  unfold row_header.
  destruct (block_guard _ _) eqn:Hg.
  { assert (block_store (append_current_block st) = block_store st) as Es
      by (unfold append_current_block; by destruct (current_block st)).
    destruct (match_block _) as [[g1 g2]|].
    - destruct (credits_hours_or_zero _ _) as [cr h]. simpl.
      by rewrite fmap_app, Es.
    - simpl. by rewrite Es, app_nil_r. }
  rewrite app_nil_r.
  destruct (module_guard _ _ _ _).
  { destruct (current_block st) as [a|]; [|done].
    destruct (credits_hours_or_zero _ _) as [cr h].
    destruct (num_pos cr || (0 <? h)); [|done]. simpl.
    rewrite (list_fmap_alter block_header _ id) by by apply Forall_true.
    by rewrite list_alter_id. }
  destruct (is_discipline_row row); [|done].
  repeat case_match; try done.
  unfold append_discipline. by destruct (current_module st).
Qed.

Lemma block_store_headers rows st :
  block_header <$> block_store (fold_left process_row rows st) =
  (block_header <$> block_store st) ++ omap row_header rows.
Proof.
  revert st. induction rows as [|row rows IH]; intros st.
  - by rewrite app_nil_r.
  - simpl. rewrite IH, block_store_headers_step, <- app_assoc. f_equal.
    by destruct (row_header row).
Qed.

Lemma block_store_append_current_block st :
  block_store (append_current_block st) = block_store st.
Proof. unfold append_current_block. by destruct (current_block st). Qed.

(** Every block of the tree has the header of a stored block. *)
Lemma tree_block_stored st b :
  b ∈ tree_blocks st → block_header b ∈ block_header <$> block_store st.
Proof.
  unfold tree_blocks. intros (a & _ & Ha)%list_elem_of_omap.
  unfold resolve_block in Ha.
  destruct (block_store st !! a) as [blk|] eqn:E; [|done].
  simpl in Ha. injection Ha as <-.
  apply list_elem_of_fmap. exists blk. split; [done|].
  by eapply list_elem_of_lookup_2.
Qed.

(** When every header has a name, the tree lists the stored blocks in the
    order in which they were opened. *)
Lemma tree_blocks_named rows :
  Forall named_header rows →
  block_header <$> tree_blocks (classify rows) =
  block_header <$> block_store (state_after rows).
Proof.
  intros Hrows. unfold classify, state_after.
  destruct (totals_inv_steps rows init_state Hrows totals_inv_init)
    as (_ & _ & Hb).
  remember (fold_left process_row rows init_state) as st eqn:E. clear E.
  unfold tree_blocks.
  replace (blocks (append_current_block st))
    with (seq 0 (length (block_store st))).
  - rewrite (omap_seq_lookup (block_store st) _
               (λ blk, mkBlock (block_number blk) (block_name blk)
                         (b_total_credits blk) (b_total_hours blk)
                         (omap (λ m, module_store (append_current_block st) !! m)
                            (b_modules blk)))).
    + rewrite <- list_fmap_compose. by apply list_fmap_ext.
    + intros i x Hi. unfold resolve_block.
      by rewrite block_store_append_current_block, Hi.
  - rewrite <- Hb. unfold append_current_block.
    destruct (current_block st); simpl; [done|by rewrite app_nil_r].
Qed.

(** X4: every block of the result is the block of a header row of the input:
    its number, name, credits and hours are those that this row gives. *)
Theorem blocks_from_header_rows lower rows b :
  b ∈ cur_blocks (parse_curriculum_csv lower rows) →
  ∃ row, row ∈ rows ∧ row_header row = Some (block_header b).
Proof.
  simpl. intros Hb. apply tree_block_stored in Hb. unfold classify in Hb.
  rewrite block_store_append_current_block in Hb.
  rewrite (block_store_headers rows init_state) in Hb. simpl in Hb.
  apply list_elem_of_omap in Hb as (row & Hrow & Hh). eauto.
Qed.

(** X5: when every row that enters the Block branch has a name, the blocks
    of the result are the blocks of the header rows, one for each, in the
    order of the rows. *)
Theorem blocks_in_header_order lower rows :
  Forall named_header rows →
  block_header <$> cur_blocks (parse_curriculum_csv lower rows) =
  omap row_header rows.
Proof.
  intros H. simpl. rewrite tree_blocks_named by done.
  unfold state_after. by rewrite (block_store_headers rows init_state).
Qed.

End Headers.

(** The block of the example is the block of its first row. *)
Lemma blocks_from_header_rows_witness :
  let rows := [row_of "" "Блок 1. Дисциплины" "10" "360";
               row_of "" "Модуль" "3" "108"] in
  let b := mkBlock 1 (utf8 "Дисциплины") (PyFloat 10) 360
             [mkModule (utf8 "Модуль") (PyFloat 3) 108 []] in
  b ∈ cur_blocks (parse_curriculum_csv basic_lower rows)
  ∧ ∃ row, row ∈ rows ∧ row_header row = Some (block_header b).
Proof.
  split; [vm_compute; left|].
  apply (blocks_from_header_rows basic_lower). vm_compute. left.
Defined.

(** Two headers with names around a Module row. *)
Lemma blocks_in_header_order_witness :
  let rows := [row_of "" "Блок 1. Дисциплины" "10" "360";
               row_of "" "Модуль" "3" "108";
               row_of "" "Блок 2. Практика" "6" "216"] in
  Forall named_header rows
  ∧ block_header <$> cur_blocks (parse_curriculum_csv basic_lower rows) =
    omap row_header rows.
Proof.
  assert (Forall named_header
            [row_of "" "Блок 1. Дисциплины" "10" "360";
             row_of "" "Модуль" "3" "108";
             row_of "" "Блок 2. Практика" "6" "216"]) as H.
  { repeat constructor; intros _ Hg; try discriminate Hg; by eexists. }
  split; [exact H|]. by apply (blocks_in_header_order basic_lower).
Defined.

(** ** The fields of the nodes *)

Section Fields.

Lemma to_decimal_range c d : to_decimal c = Some d → 0 ≤ d ≤ 9.
Proof.
  unfold to_decimal.
  destruct (find _ decimal_zeros) as [z|] eqn:Hf; [|done].
  apply find_some in Hf as [_ Hz]. intros [= <-].
  apply andb_prop in Hz as [H1%N.leb_le H2%N.ltb_lt]. lia.
Qed.

Lemma int_of_digits_nonneg ds :
  Forall (λ d, 0 ≤ d ≤ 9) ds → 0 ≤ int_of_digits ds.
Proof.
  unfold int_of_digits. intros H.
  assert (∀ acc, 0 ≤ acc → 0 ≤ fold_left (λ acc d, acc * 10 + d) ds acc)
    as Hacc.
  { induction H as [|d ds Hd _ IH]; intros acc Ha; [done|].
    simpl. apply IH. lia. }
  by apply Hacc.
Qed.

Lemma span_digits_range s ds rest :
  span_digits s = (ds, rest) → Forall (λ d, 0 ≤ d ≤ 9) ds.
Proof.
  intros (pre & _ & H)%span_digits_spec.
  induction H as [|c d pre ds Hc _ IH]; constructor; [|done].
  by eapply to_decimal_range.
Qed.

Lemma dot_plus_no_newline s : newline ∉ dot_plus s.
Proof.
  induction s as [|c s IH]; simpl; [apply not_elem_of_nil|].
  destruct (c =? newline)%N eqn:E; [apply not_elem_of_nil|].
  apply not_elem_of_cons. split; [|done].
  intros Hc. subst c. by rewrite N.eqb_refl in E.
Qed.

(** What the pattern of a Block header captures: a number that is not
    negative and a name that is not empty and holds no newline. *)
Lemma match_block_groups s g1 g2 :
  match_block s = Some (g1, g2) →
  0 ≤ int_of_digits g1 ∧ g2 ≠ [] ∧ newline ∉ g2.
Proof.
  unfold match_block.
  destruct (strip_prefix _ s) as [r|]; [|done].
  destruct (span_digits r) as [[|d ds] [|c [|c' rest]]] eqn:Hs; try done.
  destruct ((c =? dot) && (c' =? space))%N; [|done].
  destruct (dot_plus rest) as [|a name] eqn:Hn; [done|].
  intros [= <- <-]. split; [|split; [done|]].
  - by eapply int_of_digits_nonneg, span_digits_range.
  - rewrite <- Hn. apply dot_plus_no_newline.
Qed.

(** The credits of a cell are the integer 0 or a float. *)
Lemma credits_hours_or_zero_type col3 col4 cr h :
  credits_hours_or_zero col3 col4 = (cr, h) →
  cr = PyInt 0 ∨ ∃ f, cr = PyFloat f.
Proof.
  unfold credits_hours_or_zero, credits_hours, credits_of.
  destruct (nonempty col3).
  - destruct (float_of_str col3) as [f|]; simpl.
    + destruct (hours_of col4); simpl; intros [= <- <-]; eauto.
    + intros [= <- <-]. by left.
  - destruct (hours_of col4); simpl; intros [= <- <-]; by left.
Qed.

Lemma credits_of_nonempty col3 cr :
  nonempty col3 = true → credits_of col3 = Some cr → ∃ f, cr = PyFloat f.
Proof.
  unfold credits_of. intros ->.
  destruct (float_of_str col3) as [f|]; [|done]. intros [= <-]. eauto.
Qed.

(** The value of a purely numeric cell is not negative. *)
Lemma numeric_cell_value s n :
  match_digits (strip s) = true → int_of_str (strip s) = Some n → 0 ≤ n.
Proof.
  unfold match_digits.
  destruct (span_digits (strip s)) as [[|d ds] rest] eqn:Hspan; [done|].
  intros H%bool_decide_eq_true.
  pose proof (span_digits_range _ _ _ Hspan) as Hr.
  apply span_digits_spec in Hspan as (pre & Hs & Hpre).
  destruct H as [-> | ->].
  - rewrite app_nil_r in Hs. rewrite Hs.
    rewrite (int_of_str_digits pre (d :: ds)); [|by inversion Hpre|done].
    intros [= <-]. by apply int_of_digits_nonneg.
  - by apply strip_snoc in Hs.
Qed.

Lemma module_guard_facts a b c d :
  module_guard a b c d = true →
  nonempty b = true ∧ startswith block_token b = false
  ∧ match_digits b = false ∧ nonempty c = true.
Proof.
  unfold module_guard. intros H.
  repeat (apply andb_prop in H as [H ?]).
  repeat split; try done; by apply negb_true_iff.
Qed.

Lemma discipline_guard_facts a b c d :
  discipline_guard a b c d = true →
  match_digits a = true ∧ nonempty b = true ∧ nonempty c = true.
Proof.
  unfold discipline_guard. intros H.
  repeat (apply andb_prop in H as [H ?]). done.
Qed.

(** X6: in every block of the result the number is not negative, the name
    is not empty and holds no newline, and the credits are the integer 0 or a
    float. *)
Theorem block_fields lower rows b :
  b ∈ cur_blocks (parse_curriculum_csv lower rows) →
  0 ≤ block_number b ∧ block_name b ≠ [] ∧ (newline ∉ block_name b)
  ∧ (b_total_credits b = PyInt 0 ∨ ∃ f, b_total_credits b = PyFloat f).
Proof.
  simpl. intros Hb. apply tree_block_stored in Hb. unfold classify in Hb.
  rewrite block_store_append_current_block in Hb.
  rewrite (block_store_headers rows init_state) in Hb. simpl in Hb.
  apply list_elem_of_omap in Hb as (row & _ & Hh).
  unfold row_header in Hh. destruct (block_guard _ _); [|done].
  destruct (match_block _) as [[g1 g2]|] eqn:Hm; [|done].
  destruct (credits_hours_or_zero _ _) as [cr h] eqn:Hch.
  unfold block_header in Hh. injection Hh as E1 E2 E3 _.
  rewrite <- E1, <- E2, <- E3.
  destruct (match_block_groups _ _ _ Hm) as (? & ? & ?).
  repeat split; try done. by eapply credits_hours_or_zero_type.
Qed.

(** X7: in every module of the result the name is stripped and not empty,
    does not start with the Block label and is not purely numeric, and the
    credits are a float. *)
Theorem module_fields lower rows m :
  m ∈ all_modules (cur_blocks (parse_curriculum_csv lower rows)) →
  module_name m ≠ [] ∧ strip (module_name m) = module_name m
  ∧ startswith block_token (module_name m) = false
  ∧ match_digits (module_name m) = false
  ∧ ∃ f, m_credits m = PyFloat f.
Proof.
  simpl. revert m. apply Forall_forall.
  apply (classified_module_rows
           (λ m, module_name m ≠ [] ∧ strip (module_name m) = module_name m
                 ∧ startswith block_token (module_name m) = false
                 ∧ match_digits (module_name m) = false
                 ∧ ∃ f, m_credits m = PyFloat f)).
  - intros row cr h Hg Hch Hpos. simpl.
    apply module_guard_facts in Hg as (H2 & Hs & Hd & H3).
    repeat split; try done.
    + intros E. by rewrite E in H2.
    + apply strip_strip.
    + unfold credits_hours_or_zero, credits_hours in Hch.
      destruct (credits_of (col3 row)) as [c|] eqn:Hc.
      * destruct (hours_of (col4 row)); simpl in Hch.
        -- injection Hch as <- <-. by eapply credits_of_nonempty.
        -- by injection Hch as <- <-.
      * by injection Hch as <- <-.
  - by intros m row n cr h _ _ _ _ H.
Qed.

(** X8: in every discipline of the result the name is stripped and not
    empty, the semester is present and not negative, and the credits are a
    float. *)
Theorem discipline_fields lower rows d :
  d ∈ all_disciplines (cur_blocks (parse_curriculum_csv lower rows)) →
  d_name d ≠ [] ∧ strip (d_name d) = d_name d
  ∧ (∃ n, d_semester d = Some n ∧ 0 ≤ n)
  ∧ ∃ f, d_credits d = PyFloat f.
Proof.
  unfold all_disciplines. rewrite list_elem_of_bind. intros (m & Hd & Hm).
  revert d Hd. apply Forall_forall. revert m Hm. apply Forall_forall. simpl.
  apply (classified_module_rows
           (λ m, Forall (λ d, d_name d ≠ [] ∧ strip (d_name d) = d_name d
                              ∧ (∃ n, d_semester d = Some n ∧ 0 ≤ n)
                              ∧ ∃ f, d_credits d = PyFloat f)
                   (m_disciplines m))).
  - intros. constructor.
  - intros m row n cr h Hrow Hn Hc Hh Hm. simpl.
    apply Forall_app. split; [done|]. repeat constructor; simpl.
    + apply discipline_guard_facts in Hrow as (_ & H2 & _).
      intros E. by rewrite E in H2.
    + apply strip_strip.
    + exists n. split; [done|].
      apply discipline_guard_facts in Hrow as (H1 & _).
      by eapply numeric_cell_value.
    + apply discipline_guard_facts in Hrow as (_ & _ & H3).
      by eapply credits_of_nonempty.
Qed.

End Fields.

(** The block, the module and the discipline of one small table. *)
Lemma block_fields_witness :
  let rows := [row_of "" "Блок 1. Дисциплины" "10" "360";
               row_of "" "Модуль" "3" "108";
               row_of "1" "Машинное обучение" "5" "180"] in
  let d := mkDiscipline (Some 1) (utf8 "Машинное обучение") (PyFloat 5) 180 in
  let m := mkModule (utf8 "Модуль") (PyFloat 3) 108 [d] in
  let b := mkBlock 1 (utf8 "Дисциплины") (PyFloat 10) 360 [m] in
  b ∈ cur_blocks (parse_curriculum_csv basic_lower rows)
  ∧ 0 ≤ block_number b ∧ block_name b ≠ [] ∧ (newline ∉ block_name b)
  ∧ (b_total_credits b = PyInt 0 ∨ ∃ f, b_total_credits b = PyFloat f).
Proof.
  split; [vm_compute; left|].
  apply (block_fields basic_lower
           [row_of "" "Блок 1. Дисциплины" "10" "360";
            row_of "" "Модуль" "3" "108";
            row_of "1" "Машинное обучение" "5" "180"]).
  vm_compute. left.
Defined.

Lemma module_fields_witness :
  let rows := [row_of "" "Блок 1. Дисциплины" "10" "360";
               row_of "" "Модуль" "3" "108";
               row_of "1" "Машинное обучение" "5" "180"] in
  let d := mkDiscipline (Some 1) (utf8 "Машинное обучение") (PyFloat 5) 180 in
  let m := mkModule (utf8 "Модуль") (PyFloat 3) 108 [d] in
  m ∈ all_modules (cur_blocks (parse_curriculum_csv basic_lower rows))
  ∧ module_name m ≠ [] ∧ strip (module_name m) = module_name m
  ∧ startswith block_token (module_name m) = false
  ∧ match_digits (module_name m) = false
  ∧ ∃ f, m_credits m = PyFloat f.
Proof.
  split; [vm_compute; left|].
  apply (module_fields basic_lower
           [row_of "" "Блок 1. Дисциплины" "10" "360";
            row_of "" "Модуль" "3" "108";
            row_of "1" "Машинное обучение" "5" "180"]).
  vm_compute. left.
Defined.

Lemma discipline_fields_witness :
  let rows := [row_of "" "Блок 1. Дисциплины" "10" "360";
               row_of "" "Модуль" "3" "108";
               row_of "1" "Машинное обучение" "5" "180"] in
  let d := mkDiscipline (Some 1) (utf8 "Машинное обучение") (PyFloat 5) 180 in
  d ∈ all_disciplines (cur_blocks (parse_curriculum_csv basic_lower rows))
  ∧ d_name d ≠ [] ∧ strip (d_name d) = d_name d
  ∧ (∃ n, d_semester d = Some n ∧ 0 ≤ n)
  ∧ ∃ f, d_credits d = PyFloat f.
Proof.
  split; [vm_compute; left|].
  apply (discipline_fields basic_lower
           [row_of "" "Блок 1. Дисциплины" "10" "360";
            row_of "" "Модуль" "3" "108";
            row_of "1" "Машинное обучение" "5" "180"]).
  vm_compute. left.
Defined.

(** ** The counters and the hours of the summary *)

Section SummaryTotals.

Variable lower : str → str.

(** X9: the counters of the summary are those of the tree it is computed
    from: the number of blocks, the number of modules in all blocks, the
    number of disciplines in all modules; the number of semesters is 4
    whatever the tree is. *)
Theorem summary_counts bs :
  blocks_count (extract_summary_info lower bs) = Z.of_nat (length bs)
  ∧ modules_count (extract_summary_info lower bs) =
    Z.of_nat (length (all_modules bs))
  ∧ total_disciplines (extract_summary_info lower bs) =
    Z.of_nat (length (all_disciplines bs))
  ∧ semesters_count (extract_summary_info lower bs) = 4.
Proof. by rewrite extract_summary_info_closed. Qed.

Lemma add_work_hours ms w :
  w_total_hours (fold_left add_work ms w) = w_total_hours w + module_hours ms.
Proof.
  revert w. induction ms as [|m ms IH]; intros w; simpl; [lia|].
  rewrite IH. simpl. lia.
Qed.

Lemma module_hours_split (P : Module → Prop) `{!∀ m, Decision (P m)} ms :
  module_hours (filter P ms) + module_hours (filter (λ m, ¬ P m) ms) =
  module_hours ms.
Proof.
  induction ms as [|m ms IH]; [done|].
  rewrite !filter_cons. simpl.
  destruct (decide (P m)), (decide (¬ P m)); simpl; try tauto; lia.
Qed.

(** X10: the hours of every module go to the practical or to the theoretical
    work, and to one of them only: the two totals add up to the hours of all
    modules of the tree. *)
Theorem work_hours_add_up bs :
  w_total_hours (practical_work (extract_summary_info lower bs))
  + w_total_hours (theoretical_work (extract_summary_info lower bs)) =
  module_hours (all_modules bs).
Proof.
  rewrite extract_summary_info_closed. simpl.
  rewrite !add_work_hours. simpl.
  apply (module_hours_split (λ m, is_practical lower m)).
Qed.

Lemma fold_bucket_hours ds b :
  bk_hours (fold_left (λ b d, add_to_bucket d b) ds b) =
  bk_hours b + discipline_hours ds.
Proof.
  revert b. induction ds as [|d ds IH]; intros b; simpl; [lia|].
  rewrite IH. simpl. lia.
Qed.

Lemma bucket_hours_distribution ds k :
  1 ≤ k ≤ 4 →
  bucket_hours (fold_left distribute ds init_distribution) k =
  discipline_hours (of_semester k ds).
Proof.
  intros Hk. unfold bucket_hours. rewrite distribution_lookup.
  rewrite bool_decide_eq_true_2 by done. simpl. by rewrite fold_bucket_hours.
Qed.

Lemma in_buckets_cases d :
  if in_buckets d
  then d_semester d = Some 1 ∨ d_semester d = Some 2
       ∨ d_semester d = Some 3 ∨ d_semester d = Some 4
  else d_semester d ≠ Some 1 ∧ d_semester d ≠ Some 2
       ∧ d_semester d ≠ Some 3 ∧ d_semester d ≠ Some 4.
Proof.
  unfold in_buckets. destruct (d_semester d) as [n|]; [|done].
  destruct ((1 <=? n) && (n <=? 4)) eqn:E.
  - apply andb_prop in E as [?%Z.leb_le ?%Z.leb_le].
    assert (n = 1 ∨ n = 2 ∨ n = 3 ∨ n = 4) as [->|[->|[->| ->]]] by lia; auto.
  - apply andb_false_iff in E as [?%Z.leb_gt | ?%Z.leb_gt];
      repeat split; intros [= ->]; lia.
Qed.

Lemma of_semester_partition ds :
  (length (of_semester 1 ds) + length (of_semester 2 ds)
   + length (of_semester 3 ds) + length (of_semester 4 ds))%nat =
  length (filter (λ d, in_buckets d) ds)
  ∧ discipline_hours (of_semester 1 ds) + discipline_hours (of_semester 2 ds)
    + discipline_hours (of_semester 3 ds) + discipline_hours (of_semester 4 ds)
    = discipline_hours (filter (λ d, in_buckets d) ds).
Proof.
  unfold of_semester. induction ds as [|d ds [IH1 IH2]]; [done|].
  rewrite !filter_cons. pose proof (in_buckets_cases d) as Hd.
  destruct (in_buckets d) eqn:E; simpl.
  - destruct (decide (True)) as [_|[]]; [|done].
    destruct Hd as [Hd|[Hd|[Hd|Hd]]]; rewrite Hd;
      repeat (case_decide; [|congruence]);
      repeat (case_decide; [congruence|]);
      repeat (case_decide; [|congruence]);
      repeat (case_decide; [congruence|]);
      simpl; split; lia.
  - destruct (decide (False)) as [[]|_].
    destruct Hd as (? & ? & ? & ?).
    repeat (case_decide; [congruence|]). split; lia.
Qed.

(** X11: the four buckets together count the disciplines that carry a
    semester from 1 to 4, each once for every visit of the aggregator, and
    hold their hours: nothing else is counted and none of them is missed. *)
Theorem buckets_account bs :
  counted_disciplines (semester_distribution (extract_summary_info lower bs))
  = Z.of_nat (length (filter (λ d, in_buckets d) (all_disciplines bs)))
  ∧ distributed_hours (semester_distribution (extract_summary_info lower bs))
    = discipline_hours (filter (λ d, in_buckets d) (all_disciplines bs)).
Proof.
  rewrite extract_summary_info_closed. simpl.
  unfold counted_disciplines, distributed_hours.
  rewrite !bucket_count_distribution, !bucket_hours_distribution by lia.
  destruct (of_semester_partition (all_disciplines bs)) as [H1 H2].
  split; [lia | done].
Qed.

End SummaryTotals.

(** ** The state is well formed *)

Section WellFormed.

Lemma well_formed_init : well_formed init_state.
Proof.
  split; [|done]. repeat split; simpl; try done.
  intros b Hb. by apply elem_of_nil in Hb.
Qed.

Lemma well_formed_append_current_block st :
  well_formed st → well_formed (append_current_block st).
Proof.
  intros H. pose proof H as [(H1 & H2 & H3 & H4) H5].
  unfold append_current_block.
  destruct (current_block st) as [b|] eqn:Hb; [|done].
  split; [|by unfold module_open_last in *; simpl; rewrite Hb in H5].
  repeat split; simpl; try done.
  intros a [Ha|Ha%list_elem_of_singleton]%elem_of_app; [by apply H1|].
  subst a. by apply H2.
Qed.

Lemma well_formed_open_block st num name cr h :
  well_formed st → well_formed (open_block st (mkBlock num name cr h [])).
Proof.
  intros [(H1 & H2 & H3 & H4) H5]. split.
  - repeat split; simpl; rewrite ?length_app; simpl.
    + intros b Hb. apply H1 in Hb. lia.
    + intros b [= <-]. lia.
    + intros a blk m [[_ Ha]|[_ <-]]%lookup_snoc_Some Hm.
      * apply (H3 _ _ _ Ha) in Hm. lia.
      * by apply elem_of_nil in Hm.
    + done.
  - unfold module_open_last. simpl. intros b blk [= <-] Hl.
    rewrite list_lookup_middle in Hl by done. by injection Hl as <-.
Qed.

Lemma well_formed_open_module st b m :
  current_block st = Some b → well_formed st →
  well_formed (open_module st b m).
Proof.
  intros Hb [(H1 & H2 & H3 & H4) H5].
  destruct (lookup_lt_is_Some_2 (block_store st) b (H2 _ Hb)) as [blk Hblk].
  split.
  - repeat split; simpl; rewrite ?length_alter, ?length_app; simpl.
    + done.
    + done.
    + intros a blk' m' Ha Hm'. rewrite list_lookup_alter in Ha.
      destruct (decide (b = a)) as [->|Hne].
      * rewrite Hblk in Ha. simpl in Ha. injection Ha as <-. simpl in Hm'.
        apply elem_of_app in Hm' as [Hm'|Hm'%list_elem_of_singleton].
        -- apply (H3 _ _ _ Hblk) in Hm'. lia.
        -- subst m'. lia.
      * apply (H3 _ _ _ Ha) in Hm'. lia.
    + intros m' [= <-]. lia.
  - unfold module_open_last. simpl. exists b, (add_module_ref (length (module_store st)) blk).
    split; [done|]. split; [by rewrite list_lookup_alter_eq, Hblk|].
    simpl. apply last_snoc.
Qed.

Lemma well_formed_append_discipline st d :
  well_formed st → well_formed (append_discipline st d).
Proof.
  intros H. pose proof H as [(H1 & H2 & H3 & H4) H5].
  unfold append_discipline.
  destruct (current_module st) as [m|] eqn:Hm; [|done].
  split; [|by unfold module_open_last in *; simpl; rewrite Hm in H5].
  repeat split; simpl; rewrite ?length_alter; done.
Qed.

Lemma well_formed_step st row :
  well_formed st → well_formed (process_row st row).
Proof.
  intros H. rewrite process_row_three_branches.
  destruct (is_blank row); [done|].
  destruct (block_guard _ _).
  { destruct (match_block _) as [[g1 g2]|];
      [destruct (credits_hours_or_zero _ _)|].
    - by apply well_formed_open_block, well_formed_append_current_block.
    - by apply well_formed_append_current_block. }
  destruct (module_guard _ _ _ _).
  { destruct (current_block st) as [b|] eqn:Hb; [|done].
    destruct (credits_hours_or_zero _ _) as [cr h].
    destruct (num_pos cr || (0 <? h)); [|done].
    by apply well_formed_open_module. }
  destruct (is_discipline_row row); [|done].
  repeat case_match; try done.
  by apply well_formed_append_discipline.
Qed.

Lemma well_formed_steps rows st :
  well_formed st → well_formed (fold_left process_row rows st).
Proof.
  revert st. induction rows as [|row rows IH]; intros st H; [done|].
  simpl. by apply IH, well_formed_step.
Qed.


End WellFormed.

(** ** Reading more rows only adds *)

Section Growth.

Lemma module_grows_refl m : module_grows m m.
Proof. by repeat split. Qed.

Lemma module_grows_trans m1 m2 m3 :
  module_grows m1 m2 → module_grows m2 m3 → module_grows m1 m3.
Proof.
  intros (? & ? & ? & ?) (? & ? & ? & ?).
  repeat split; try congruence. by etrans.
Qed.

Lemma stored_block_grows_refl b : stored_block_grows b b.
Proof. by split. Qed.

Lemma store_grows_refl st : store_grows st st.
Proof.
  split; intros a x Hx; exists x;
    eauto using stored_block_grows_refl, module_grows_refl.
Qed.

Lemma store_grows_trans st1 st2 st3 :
  store_grows st1 st2 → store_grows st2 st3 → store_grows st1 st3.
Proof.
  intros [Hb12 Hm12] [Hb23 Hm23]. split.
  - intros a b Hb. destruct (Hb12 _ _ Hb) as (b2 & H2 & [Hh2 Hp2]).
    destruct (Hb23 _ _ H2) as (b3 & H3 & [Hh3 Hp3]).
    exists b3. split; [done|]. split; [congruence | by etrans].
  - intros a m Hm. destruct (Hm12 _ _ Hm) as (m2 & H2 & Hg2).
    destruct (Hm23 _ _ H2) as (m3 & H3 & Hg3).
    exists m3. split; [done|]. by eapply module_grows_trans.
Qed.

Lemma store_grows_same st st' :
  block_store st' = block_store st → module_store st' = module_store st →
  store_grows st st'.
Proof.
  intros Eb Em. split; intros a x Hx; exists x; rewrite ?Eb, ?Em;
    eauto using stored_block_grows_refl, module_grows_refl.
Qed.

Lemma store_grows_step st row : store_grows st (process_row st row).
Proof.
  rewrite process_row_three_branches.
  destruct (is_blank row); [apply store_grows_refl|].
  destruct (block_guard _ _).
  { assert (store_grows st (append_current_block st)) as Hacb.
    { apply store_grows_same; unfold append_current_block;
        by destruct (current_block st). }
    destruct (match_block _) as [[g1 g2]|];
      [destruct (credits_hours_or_zero _ _)|done].
    eapply store_grows_trans; [done|]. split; simpl.
    - intros a b Hb. exists b. split; [by apply lookup_app_l_Some|].
      apply stored_block_grows_refl.
    - intros a m Hm. exists m. split; [done | apply module_grows_refl]. }
  destruct (module_guard _ _ _ _).
  { destruct (current_block st) as [b|]; [|apply store_grows_refl].
    destruct (credits_hours_or_zero _ _) as [cr h].
    destruct (num_pos cr || (0 <? h)); [|apply store_grows_refl].
    split; simpl.
    - intros a blk Ha. rewrite list_lookup_alter.
      destruct (decide (b = a)) as [->|_].
      + rewrite Ha. simpl. eexists. split; [done|].
        split; [done|]. simpl. by apply prefix_app_r.
      + exists blk. split; [done | apply stored_block_grows_refl].
    - intros a m Hm. exists m.
      split; [by apply lookup_app_l_Some | apply module_grows_refl]. }
  destruct (is_discipline_row row); [|apply store_grows_refl].
  repeat case_match; try apply store_grows_refl.
  unfold append_discipline.
  destruct (current_module st) as [m|]; [|apply store_grows_refl].
  split; simpl.
  - intros a b Hb. exists b. split; [done | apply stored_block_grows_refl].
  - intros a mo Ha. rewrite list_lookup_alter.
    destruct (decide (m = a)) as [->|_].
    + rewrite Ha. simpl. eexists. split; [done|].
      repeat split; try done. simpl. by apply prefix_app_r.
    + exists mo. split; [done | apply module_grows_refl].
Qed.

Lemma store_grows_steps rows st :
  store_grows st (fold_left process_row rows st).
Proof.
  revert st. induction rows as [|row rows IH]; intros st;
    [apply store_grows_refl|].
  simpl. eapply store_grows_trans; [apply store_grows_step | apply IH].
Qed.

(** The list of blocks with the current block appended only gets longer. *)
Lemma listed_blocks_step st row :
  blocks (append_current_block st) `prefix_of`
  blocks (append_current_block (process_row st row)).
Proof.
  rewrite process_row_three_branches.
  destruct (is_blank row); [done|].
  destruct (block_guard _ _).
  { destruct (match_block _) as [[g1 g2]|];
      [destruct (credits_hours_or_zero _ _)|].
    - unfold append_current_block at 2. simpl. by apply prefix_app_r.
    - unfold append_current_block at 2.
      destruct (current_block (append_current_block st)); [|done].
      simpl. by apply prefix_app_r. }
  destruct (module_guard _ _ _ _).
  { destruct (current_block st) as [b|] eqn:Hb; [|done].
    destruct (credits_hours_or_zero _ _) as [cr h].
    destruct (num_pos cr || (0 <? h)); [|done].
    unfold append_current_block, open_module. simpl. by rewrite Hb. }
  destruct (is_discipline_row row); [|done].
  repeat case_match; try done.
  unfold append_discipline. destruct (current_module st); [|done].
  unfold append_current_block. simpl. by destruct (current_block st).
Qed.

Lemma listed_blocks_steps rows st :
  blocks (append_current_block st) `prefix_of`
  blocks (append_current_block (fold_left process_row rows st)).
Proof.
  revert st. induction rows as [|row rows IH]; intros st; [done|].
  simpl. etrans; [apply listed_blocks_step | apply IH].
Qed.

Lemma Forall2_omap {A B C} (R : B → C → Prop) (f : A → option B)
    (g : A → option C) l :
  (∀ a, a ∈ l → ∃ x y, f a = Some x ∧ g a = Some y ∧ R x y) →
  Forall2 R (omap f l) (omap g l).
Proof.
  induction l as [|a l IH]; intros H; [constructor|].
  destruct (H a) as (x & y & Hx & Hy & HR); [left|].
  simpl. rewrite Hx, Hy. constructor; [done|].
  apply IH. intros a' Ha'. apply H. by right.
Qed.

Lemma tree_blocks_append_current_block st :
  tree_blocks (append_current_block st) =
  omap (resolve_block st) (blocks (append_current_block st)).
Proof.
  unfold tree_blocks. apply list_omap_ext, Forall2_same_length_lookup.
  split; [done|]. intros i a a' Ha Ha'. assert (a' = a) as -> by congruence.
  unfold resolve_block, append_current_block.
  by destruct (current_block st).
Qed.

(** The blocks at valid addresses grow when the stores do. *)
Lemma resolve_block_grows st st' a :
  addresses_valid st → store_grows st st' →
  (a < length (block_store st))%nat →
  ∃ b b', resolve_block st a = Some b ∧ resolve_block st' a = Some b'
          ∧ block_grows b b'.
Proof.
  intros (_ & _ & H3 & _) [Hb Hm] Ha.
  destruct (lookup_lt_is_Some_2 _ _ Ha) as [blk Hblk].
  destruct (Hb _ _ Hblk) as (blk' & Hblk' & Hh & [ext Hext]).
  unfold resolve_block. rewrite Hblk, Hblk'. simpl.
  eexists _, _. split; [done|]. split; [done|].
  split; [by unfold block_header in *; simpl|]. simpl.
  exists (omap (λ m, module_store st' !! m) (b_modules blk)). split.
  - apply Forall2_omap. intros m Hmem.
    pose proof (H3 _ _ _ Hblk Hmem) as Hlt.
    destruct (lookup_lt_is_Some_2 _ _ Hlt) as [mo Hmo].
    destruct (Hm _ _ Hmo) as (mo' & Hmo' & Hg). eauto.
  - rewrite Hext, omap_app. by apply prefix_app_r.
Qed.

(** X13: reading more rows only adds to the tree. The blocks obtained from
    the first rows of a table are, in the same order, the first blocks
    obtained from the whole table, with the same number, name, credits and
    hours; their modules are the first modules there, with the same name,
    credits and hours, and the disciplines of each are the first disciplines
    there. *)
Theorem more_rows_only_add lower pre post :
  tree_grows (cur_blocks (parse_curriculum_csv lower pre))
    (cur_blocks (parse_curriculum_csv lower (pre ++ post))).
Proof.
  simpl. unfold classify. rewrite fold_left_app.
  set (st := fold_left process_row pre init_state).
  set (st' := fold_left process_row post st).
  assert (well_formed (append_current_block st)) as [Hv _]
    by apply well_formed_append_current_block, well_formed_steps,
         well_formed_init.
  assert (store_grows (append_current_block st) st') as Hg.
  { eapply store_grows_trans; [|apply store_grows_steps].
    apply store_grows_same; unfold append_current_block;
      by destruct (current_block st). }
  destruct (listed_blocks_steps post st) as [ext Hext]. fold st' in Hext.
  rewrite (tree_blocks_append_current_block st').
  exists (omap (resolve_block st') (blocks (append_current_block st))).
  split.
  - apply Forall2_omap. intros a Ha.
    apply (resolve_block_grows _ st' a Hv Hg).
    destruct Hv as (H1 & _). by apply H1.
  - rewrite Hext, omap_app. by apply prefix_app_r.
Qed.

End Growth.

(** ** Page specifications *)

Section PageSpecs.

Lemma split_comma_nonempty s : split_comma s ≠ [].
Proof.
  destruct s as [|c r]; simpl; [done|].
  destruct (c =? comma)%N; [done|]. by destruct (split_comma r).
Qed.

Lemma split_comma_app s1 s2 :
  split_comma (s1 ++ comma :: s2) = split_comma s1 ++ split_comma s2.
Proof.
  induction s1 as [|c r IH]; [done|]. simpl.
  destruct (c =? comma)%N; [by rewrite IH|]. rewrite IH.
  pose proof (split_comma_nonempty r). by destruct (split_comma r).
Qed.


Lemma mapM_app {A B} (f : A → option B) l1 l2 :
  mapM f (l1 ++ l2) =
  k1 ← mapM f l1; k2 ← mapM f l2; Some (k1 ++ k2).
Proof.
  induction l1 as [|x l1 IH]; simpl.
  - by destruct (mapM f l2).
  - destruct (f x); simpl; [|done]. rewrite IH.
    destruct (mapM f l1); simpl; [|done]. by destruct (mapM f l2).
Qed.

Lemma lstrip_keeps c s : c ∈ s → isspace c = false → c ∈ lstrip s.
Proof.
  intros Hc Hs. induction s as [|a s IH]; [done|]. simpl.
  destruct (isspace a) eqn:Ha; [|done].
  apply elem_of_cons in Hc as [->|Hc]; [congruence | by apply IH].
Qed.

(** [strip] removes spaces only. *)
Lemma strip_keeps c s : c ∈ s → isspace c = false → c ∈ strip s.
Proof.
  intros Hc Hs. unfold strip.
  apply elem_of_reverse, lstrip_keeps; [|done].
  by apply elem_of_reverse, lstrip_keeps.
Qed.

Lemma lower_is_all_comma s : comma ∈ s → lower_is_all s = false.
Proof.
  destruct s as [|a [|l [|l' [|? ?]]]]; try done.
  intros [<-|[<-|[<-|H]%elem_of_cons]%elem_of_cons]%elem_of_cons; try done.
  - simpl. by rewrite andb_false_r.
  - simpl. by rewrite !andb_false_r.
  - by apply elem_of_nil in H.
Qed.






Lemma parse_page_spec_bounds spec num_pages indices :
  parse_page_spec spec num_pages = Some indices →
  Forall (λ i, 0 ≤ i < num_pages) indices.
Proof.
  unfold parse_page_spec. destruct (lower_is_all _).
  - intros [= <-]. apply Forall_forall. intros i Hi.
    apply elem_of_seqZ in Hi. lia.
  - destruct (mapM part_indices _) as [ks|]; [|done]. simpl.
    intros [= <-]. apply Forall_forall. intros i Hi.
    by apply list_elem_of_filter in Hi as [? _].
Qed.

(** X14: every index that a specification gives is an index of a page of the
    document, not negative and below the number of pages; the word [all], in
    any case and between any spaces, gives every page once, in order. *)
Theorem page_indices_in_document spec num_pages indices :
  parse_page_spec spec num_pages = Some indices →
  Forall (λ i, 0 ≤ i < num_pages) indices
  ∧ (lower_is_all (strip spec) = true → indices = seqZ 0 num_pages).
Proof.
  intros H. split; [by eapply parse_page_spec_bounds|].
  intros Hall. unfold parse_page_spec in H. rewrite Hall in H.
  injection H as <-. unfold py_range. f_equal. lia.
Qed.

(** X15: a specification made of two specifications with a comma between
    them gives the pages of the first followed by the pages of the second,
    repeated pages included, and fails when one of them fails; neither part is
    the word [all], which is understood only as the whole specification. *)
Theorem page_spec_comma s1 s2 num_pages :
  lower_is_all (strip s1) = false → lower_is_all (strip s2) = false →
  parse_page_spec (s1 ++ comma :: s2) num_pages =
  l1 ← parse_page_spec s1 num_pages;
  l2 ← parse_page_spec s2 num_pages;
  Some (l1 ++ l2).
Proof.
  intros H1 H2. unfold parse_page_spec. rewrite H1, H2.
  rewrite lower_is_all_comma.
  - rewrite split_comma_app, mapM_app.
    destruct (mapM part_indices (split_comma s1)) as [k1|]; simpl; [|done].
    destruct (mapM part_indices (split_comma s2)) as [k2|]; simpl; [|done].
    by rewrite concat_app, filter_app.
  - apply strip_keeps; [|done]. apply elem_of_app. right. left.
Qed.



(** X18: a specification other than [all] with a part that is empty or
    blank, as the empty specification or one with two commas in a row or a
    comma at the end, is refused with [ValueError]. *)
Theorem page_spec_blank_part spec part num_pages :
  lower_is_all (strip spec) = false →
  part ∈ split_comma spec → strip part = [] →
  parse_page_spec spec num_pages = None.
Proof.
  intros Hall Hpart Hblank. unfold parse_page_spec. rewrite Hall.
  rewrite (mapM_None_2 part_indices (split_comma spec)); [done|].
  apply Exists_exists. exists part. split; [done|].
  unfold part_indices. by rewrite Hblank.
Qed.

End PageSpecs.

(** The pages 1 to 3 and the page 5 of a document of ten pages. *)
Lemma page_indices_in_document_witness :
  parse_page_spec (utf8 "1-3,5") 10 = Some [0; 1; 2; 4]
  ∧ Forall (λ i, 0 ≤ i < 10) [0; 1; 2; 4]
  ∧ parse_page_spec (utf8 " All ") 3 = Some [0; 1; 2]
  ∧ lower_is_all (strip (utf8 " All ")) = true
  ∧ [0; 1; 2] = seqZ 0 3.
Proof.
  split; [reflexivity|]. split.
  - by apply (page_indices_in_document (utf8 "1-3,5") 10).
  - split; [reflexivity|]. split; [reflexivity|].
    by apply (page_indices_in_document (utf8 " All ") 3).
Defined.

Lemma page_spec_comma_witness :
  lower_is_all (strip (utf8 "1-3")) = false
  ∧ lower_is_all (strip (utf8 "5")) = false
  ∧ parse_page_spec (utf8 "1-3" ++ comma :: utf8 "5") 10 =
    l1 ← parse_page_spec (utf8 "1-3") 10;
    l2 ← parse_page_spec (utf8 "5") 10;
    Some (l1 ++ l2).
Proof.
  split; [reflexivity|]. split; [reflexivity|].
  by apply page_spec_comma.
Defined.



Lemma page_spec_blank_part_witness :
  lower_is_all (strip (utf8 "1,,2")) = false
  ∧ [] ∈ split_comma (utf8 "1,,2") ∧ strip [] = []
  ∧ parse_page_spec (utf8 "1,,2") 10 = None.
Proof.
  assert ([] ∈ split_comma (utf8 "1,,2")) as H by (vm_compute; right; left).
  split; [reflexivity|]. split; [exact H|]. split; [reflexivity|].
  by apply (page_spec_blank_part (utf8 "1,,2") []).
Defined.

(** ** Collecting the tables *)

Section CollectTables.

Lemma py_index_in_range {A} (l : list A) i :
  0 ≤ i < Z.of_nat (length l) → py_index l i = l !! Z.to_nat i ∧ is_Some (py_index l i).
Proof.
  intros Hi. unfold py_index. rewrite (proj2 (Z.leb_le 0 i)) by lia.
  split; [done|]. apply lookup_lt_is_Some_2. lia.
Qed.

Lemma add_tables_with_header header ts rows :
  fold_left add_table ts (rows, Some header) =
  (rows ++ ts ≫= without_header header, Some header).
Proof.
  revert rows. induction ts as [|t ts IH]; intros rows.
  - simpl. by rewrite app_nil_r.
  - rewrite bind_cons. destruct t as [|first data_rows].
    + cbn [fold_left add_table]. by rewrite IH.
    + cbn [fold_left add_table fst snd without_header].
      by rewrite IH, app_assoc.
Qed.

(** The loop over the tables in closed form: the header is the first row of
    all, and each table adds its rows without its first row when that is the
    header. *)
Lemma add_tables_closed ts :
  fold_left add_table ts ([], None) =
  match head (concat ts) with
  | Some header => (ts ≫= without_header header, Some header)
  | None => ([], None)
  end.
Proof.
  induction ts as [|t ts IH]; [done|].
  destruct t as [|first data_rows]; [done|].
  cbn [fold_left add_table snd fst]. rewrite add_tables_with_header.
  cbn [concat app head]. rewrite bind_cons.
  cbn [without_header app]. by destruct (decide (first = first)).
Qed.

(** X19: no page is looked up outside the document: the function fails with
    [ValueError] exactly when the specification is refused and otherwise only
    with the [RuntimeError] for a selection that holds no row, never with
    [IndexError]. *)
Theorem extract_tables_errors pages pages_spec :
  extract_tables_rows pages pages_spec ≠ inl IndexError
  ∧ (extract_tables_rows pages pages_spec = inl ValueError ↔
     parse_page_spec pages_spec (Z.of_nat (length pages)) = None).
Proof.
  unfold extract_tables_rows.
  destruct (parse_page_spec _ _) as [idxs|] eqn:Hp; [|by split].
  apply parse_page_spec_bounds in Hp.
  destruct (mapM (py_index pages) idxs) as [sel|] eqn:Hm.
  - destruct (fold_left _ _ _) as [rows [header|]]; by split.
  - apply mapM_None_1, Exists_exists in Hm as (i & Hi & Hn).
    rewrite Forall_forall in Hp.
    destruct (py_index_in_range pages i (Hp i Hi)) as [_ [x Hx]]. congruence.
Qed.

(** X20: for a specification that is accepted, the header is the first row
    of the first table that is not empty among the tables of the selected
    pages, taken in the order of the specification, and the rows are the rows
    of these tables without the first row of each table that starts with the
    header; when all of them are empty the function fails with
    [RuntimeError]. *)
Theorem extract_tables_closed pages pages_spec indices :
  parse_page_spec pages_spec (Z.of_nat (length pages)) = Some indices →
  let tables := indices ≫= (λ i, default [] (pages !! Z.to_nat i)) in
  extract_tables_rows pages pages_spec =
  match head (concat tables) with
  | Some header => inr (header, tables ≫= without_header header)
  | None => inl RuntimeError
  end.
Proof.
  intros Hp tables. unfold extract_tables_rows. rewrite Hp.
  apply parse_page_spec_bounds in Hp.
  assert (mapM (py_index pages) indices =
          Some ((λ i, default [] (pages !! Z.to_nat i)) <$> indices)) as ->.
  { apply mapM_Some_2. apply Forall2_fmap_r, Forall_Forall2_diag.
    eapply Forall_impl; [done|]. intros i Hi. simpl.
    destruct (py_index_in_range pages i Hi) as [-> [x ->]]. done. }
  assert (concat ((λ i, default [] (pages !! Z.to_nat i)) <$> indices)
          = tables) as ->.
  { subst tables. induction indices as [|i l IH]; [done|].
    rewrite fmap_cons, bind_cons. simpl. f_equal. apply IH.
    by apply Forall_cons in Hp as [_ ?]. }
  rewrite add_tables_closed. by destruct (head (concat tables)).
Qed.

End CollectTables.

(** Two pages, the second of which repeats the header of the first. *)
Lemma extract_tables_closed_witness :
  let h : TableRow := [Some (utf8 "Семестр"); Some (utf8 "Название")] in
  let r1 : TableRow := [Some (utf8 "1"); Some (utf8 "Машинное обучение")] in
  let r2 : TableRow := [None; Some (utf8 "Практика")] in
  let pages : list (list Table) := [[[h; r1]]; [[]; [h; r2]]] in
  parse_page_spec (utf8 "all") (Z.of_nat (length pages)) = Some [0; 1]
  ∧ extract_tables_rows pages (utf8 "all") = inr (h, [r1; r2]).
Proof.
  split; [reflexivity|].
  exact (extract_tables_closed
           [[[[Some (utf8 "Семестр"); Some (utf8 "Название")];
              [Some (utf8 "1"); Some (utf8 "Машинное обучение")]]];
            [[]; [[Some (utf8 "Семестр"); Some (utf8 "Название")];
                  [None; Some (utf8 "Практика")]]]]
           (utf8 "all") [0; 1] eq_refl).
Defined.

(** ** The kinds of rows *)

Section RowKinds.


(** X21: the conditions of the Block, the Module and the Discipline branch
    exclude one another, so a row is of one kind at most and the order in
    which the loop tests the conditions decides nothing. *)
Theorem row_kinds_exclusive row :
  (block_guard (col1 row) (col2 row) = true →
   module_guard (col1 row) (col2 row) (col3 row) (col4 row) = false
   ∧ is_discipline_row row = false)
  ∧ (module_guard (col1 row) (col2 row) (col3 row) (col4 row) = true →
     block_guard (col1 row) (col2 row) = false
     ∧ is_discipline_row row = false)
  ∧ (is_discipline_row row = true →
     block_guard (col1 row) (col2 row) = false
     ∧ module_guard (col1 row) (col2 row) (col3 row) (col4 row) = false).
Proof.
  assert (block_guard (col1 row) (col2 row) = true →
          nonempty (col1 row) = false) as F1
    by (unfold block_guard; by destruct (nonempty (col1 row))).
  assert (module_guard (col1 row) (col2 row) (col3 row) (col4 row) = true →
          nonempty (col1 row) = false) as F2
    by (unfold module_guard; by destruct (nonempty (col1 row))).
  pose proof (discipline_row_numbered row) as F3.
  pose proof (module_row_not_block row) as F4.
  destruct (block_guard (col1 row) (col2 row)),
    (module_guard (col1 row) (col2 row) (col3 row) (col4 row)),
    (is_discipline_row row);
    repeat split; intros; try done;
    try (specialize (F1 eq_refl)); try (specialize (F2 eq_refl));
    try (specialize (F3 eq_refl)); try (specialize (F4 eq_refl));
    congruence.
Qed.


End RowKinds.

(** A Module row is neither a Block header nor a Discipline row. *)
Lemma row_kinds_exclusive_witness :
  let row := row_of "" "Модуль" "3" "108" in
  module_guard (col1 row) (col2 row) (col3 row) (col4 row) = true
  ∧ block_guard (col1 row) (col2 row) = false
  ∧ is_discipline_row row = false.
Proof.
  split; [reflexivity|].
  apply (row_kinds_exclusive (row_of "" "Модуль" "3" "108")). reflexivity.
Defined.


(** Three rows whose only header has a name. *)
Lemma totals_of_named_headers_witness :
  let rows := [row_of "" "Блок 1. Дисциплины" "10" "360";
               row_of "" "Модуль" "3" "108";
               row_of "" "Блок 2. Практика" "6" "216"] in
  Forall named_header rows
  ∧ sum_credits (cur_blocks (parse_curriculum_csv basic_lower rows)) =
    pi_total_credits (program_info (parse_curriculum_csv basic_lower rows))
  ∧ sum_hours (cur_blocks (parse_curriculum_csv basic_lower rows)) =
    pi_total_hours (program_info (parse_curriculum_csv basic_lower rows)).
Proof.
  assert (Forall named_header
            [row_of "" "Блок 1. Дисциплины" "10" "360";
             row_of "" "Модуль" "3" "108";
             row_of "" "Блок 2. Практика" "6" "216"]) as H.
  { repeat constructor; intros _ Hg; try discriminate Hg; by eexists. }
  split; [exact H|]. by apply (totals_of_named_headers basic_lower).
Defined.

(** ** The program totals and the header rows *)

Section TotalsOfHeaders.

Lemma totals_of_store_step st row :
  totals_of_store st → totals_of_store (process_row st row).
Proof.
  intros Hinv. pose proof Hinv as [Hc Hh].
  rewrite process_row_three_branches.
  destruct (is_blank row); [done|].
  destruct (block_guard _ _).
  { assert (totals_of_store (append_current_block st)) as [Hc' Hh']
      by (unfold append_current_block; by destruct (current_block st)).
    destruct (match_block _) as [[g1 g2]|];
      [destruct (credits_hours_or_zero _ _) as [cr h]|done].
    split; simpl; rewrite fmap_app, fold_left_app; simpl; congruence. }
  destruct (module_guard _ _ _ _).
  { destruct (current_block st) as [a|]; [|done].
    destruct (credits_hours_or_zero _ _) as [cr h].
    destruct (num_pos cr || (0 <? h)); [|done].
    split; simpl.
    - rewrite (list_fmap_alter b_total_credits _ id) by by apply Forall_true.
      by rewrite list_alter_id.
    - rewrite (list_fmap_alter b_total_hours _ id) by by apply Forall_true.
      by rewrite list_alter_id. }
  destruct (is_discipline_row row); [|done].
  repeat case_match; try done.
  unfold append_discipline. by destruct (current_module st).
Qed.

Lemma totals_of_store_steps rows st :
  totals_of_store st → totals_of_store (fold_left process_row rows st).
Proof.
  revert st. induction rows as [|row rows IH]; intros st H; [done|].
  simpl. by apply IH, totals_of_store_step.
Qed.

(** X24: for every input the program totals are the sums of the credits and
    of the hours that the header rows with a name give, each row counted
    once, in the order of the rows, whatever the list of blocks holds. *)
Theorem totals_sum_header_rows lower rows :
  pi_total_credits (program_info (parse_curriculum_csv lower rows)) =
    fold_left num_add (header_credits <$> omap row_header rows) (PyInt 0)
  ∧ pi_total_hours (program_info (parse_curriculum_csv lower rows)) =
    fold_left Z.add (header_hours <$> omap row_header rows) 0.
Proof.
  simpl. unfold classify.
  assert (totals_of_store (fold_left process_row rows init_state))
    as [Hc Hh] by by apply totals_of_store_steps.
  pose proof (block_store_headers rows init_state) as Hs. simpl in Hs.
  assert (∀ st, total_credits (append_current_block st) = total_credits st
                ∧ total_hours (append_current_block st) = total_hours st)
    as Hacb
    by (intros st; unfold append_current_block; by destruct (current_block st)).
  destruct (Hacb (fold_left process_row rows init_state)) as [-> ->].
  rewrite Hc, Hh, <- Hs, <- !list_fmap_compose. done.
Qed.

End TotalsOfHeaders.
